(** * generate_plan.py: normalisation, evidence formatting, section
      extraction, the two Markdown renderers and the orchestrator

    A shallow embedding of [src/generate_plan.py].  Python values coming out
    of [json.loads] are the inductive type [json]; a Python [str] is a
    [string] whose characters are the code points 0..255 (Latin-1), which
    fixes what [str.strip], [str.lower], [str.split] and the regular
    expression class [\s] mean; a [float] is kept as the text that [str]
    prints for it.  Code that can raise returns [result]; [main] runs in
    [Run], which also keeps the log of what the run did to the outside.

    The file has three parts: the model of the code, the definitions that
    the statements use, and the facts with the theorems about the code. *)

From Stdlib Require Import String Ascii List ZArith NArith Bool Lia.
From Stdlib Require Import DecimalString.
Import ListNotations.
Local Open Scope list_scope.
Local Open Scope string_scope.

(* ===================================================================== *)
(** ** Python [str] operations *)
(* ===================================================================== *)

Module PyStr.

(** [str.isspace] on one character, for code points below 256:
    TAB..CR, FS..US, SPACE, NEL and NBSP.  [str.strip()], [str.split()]
    and the pattern [\s] of [re] all use this class. *)
Definition is_space (c : ascii) : bool :=
  let n := N_of_ascii c in
  ((9 <=? n) && (n <=? 13) || (28 <=? n) && (n <=? 32)
   || (n =? 133) || (n =? 160))%N.

Definition is_digit (c : ascii) : bool :=
  let n := N_of_ascii c in ((48 <=? n) && (n <=? 57))%N.

(** [str.lower] on one character: A-Z and the Latin-1 capitals
    (0xC0..0xDE without the multiplication sign 0xD7) move up by 32. *)
Definition lower_char (c : ascii) : ascii :=
  let n := N_of_ascii c in
  if ((65 <=? n) && (n <=? 90)
      || (192 <=? n) && (n <=? 222) && negb (n =? 215))%N
  then ascii_of_N (n + 32) else c.

Fixpoint lower (s : string) : string :=
  match s with
  | EmptyString => EmptyString
  | String c t => String (lower_char c) (lower t)
  end.

Fixpoint lstrip (s : string) : string :=
  match s with
  | EmptyString => EmptyString
  | String c t => if is_space c then lstrip t else s
  end.

Fixpoint rstrip (s : string) : string :=
  match s with
  | EmptyString => EmptyString
  | String c t =>
      match rstrip t with
      | EmptyString => if is_space c then EmptyString else String c EmptyString
      | r => String c r
      end
  end.

(** [s.strip()] *)
Definition strip (s : string) : string := rstrip (lstrip s).

(** [re.sub(r"\s+", " ", s)]: every maximal run of whitespace becomes one
    space.  [in_run] records that the previous character was whitespace. *)
Fixpoint collapse_from (in_run : bool) (s : string) : string :=
  match s with
  | EmptyString => EmptyString
  | String c t =>
      if is_space c
      then if in_run then collapse_from true t
           else String " " (collapse_from true t)
      else String c (collapse_from false t)
  end.

Definition collapse_ws (s : string) : string := collapse_from false s.

(** [s.split()]: the maximal runs of non-whitespace, in order.  [cur] holds
    the characters of the word being read. *)
Fixpoint split_from (cur : string) (s : string) : list string :=
  match s with
  | EmptyString => match cur with EmptyString => [] | _ => [cur] end
  | String c t =>
      if is_space c
      then match cur with
           | EmptyString => split_from EmptyString t
           | _ => cur :: split_from EmptyString t
           end
      else split_from (cur ++ String c EmptyString) t
  end.

Definition split_ws (s : string) : list string := split_from EmptyString s.

(** [sep.join(l)] *)
Fixpoint join (sep : string) (l : list string) : string :=
  match l with
  | [] => EmptyString
  | [x] => x
  | x :: r => x ++ sep ++ join sep r
  end.

(** [join] with the empty separator. *)
Definition concat_all (l : list string) : string := String.concat EmptyString l.

(** [s.startswith(pre)] *)
Fixpoint starts_with (pre s : string) : bool :=
  match pre with
  | EmptyString => true
  | String a pre' =>
      match s with
      | EmptyString => false
      | String b s' => Ascii.eqb a b && starts_with pre' s'
      end
  end.

(** [needle in s] *)
Fixpoint contains (needle s : string) : bool :=
  starts_with needle s ||
  match s with
  | EmptyString => false
  | String _ t => contains needle t
  end.

Fixpoint drop (n : nat) (s : string) : string :=
  match n, s with
  | O, _ => s
  | S k, EmptyString => EmptyString
  | S k, String _ t => drop k t
  end.

(** [s.split(sep, 1)[-1]]: what follows the first occurrence of [sep], the
    whole of [s] when there is none. *)
Fixpoint after_first_from (sep s : string) : option string :=
  if starts_with sep s then Some (drop (String.length sep) s)
  else match s with
       | EmptyString => None
       | String _ t => after_first_from sep t
       end.

Definition split1_last (sep s : string) : string :=
  match after_first_from sep s with
  | Some r => r
  | None => s
  end.

Definition dquote : ascii := "034"%char.

(** The line feed, as a one-character string. *)
Definition nl : string := String "010"%char EmptyString.

(** [str(n)] for a Python int. *)
Definition str_of_Z (z : Z) : string := NilZero.string_of_int (Z.to_int z).

Definition str_of_nat (n : nat) : string := NilZero.string_of_uint (Nat.to_uint n).

Definition hex_digit (n : N) : ascii :=
  if (n <? 10)%N then ascii_of_N (48 + n) else ascii_of_N (87 + n).

(** The two lower-case hexadecimal digits of a code point below 256. *)
Definition hex2 (c : ascii) : string :=
  let n := N_of_ascii c in
  String (hex_digit (n / 16)) (String (hex_digit (n mod 16)) EmptyString).

End PyStr.

(* ===================================================================== *)
(** ** Values produced by [json.loads] *)
(* ===================================================================== *)

(** A Python [float] is kept as the text [str()] prints for it ([1.5],
    [1e-05], [inf], [nan], ...): the program never computes with floats, it
    only prints them and tests their truth value.  The text is non-empty and
    uses the characters of such numerals only. *)
Definition is_float_char (c : ascii) : bool :=
  PyStr.is_digit c ||
  existsb (Ascii.eqb c) ["."; "e"; "+"; "-"; "i"; "n"; "f"; "a"]%char.

Fixpoint all_chars (p : ascii -> bool) (s : string) : bool :=
  match s with
  | EmptyString => true
  | String c t => p c && all_chars p t
  end.

Definition float_text_ok (s : string) : bool :=
  negb (s =? EmptyString) && all_chars is_float_char s.

Record pyfloat : Type := MkFloat {
  float_text : string;
  float_text_wf : float_text_ok float_text = true
}.

Unset Elimination Schemes.

Inductive json : Type :=
| JNull
| JBool (b : bool)
| JInt (z : Z)
| JFloat (f : pyfloat)
| JString (s : string)
| JList (l : list json)
| JObject (d : list (string * json)).

Set Elimination Schemes.

(** Induction over the tree, through lists and through the values of
    objects. *)
Fixpoint json_ind (P : json -> Prop)
    (Hnull : P JNull) (Hbool : forall b, P (JBool b))
    (Hint : forall z, P (JInt z)) (Hfloat : forall f, P (JFloat f))
    (Hstr : forall s, P (JString s))
    (Hlist : forall l, Forall P l -> P (JList l))
    (Hobj : forall d, Forall (fun kv => P (snd kv)) d -> P (JObject d))
    (j : json) {struct j} : P j :=
  let rec := json_ind P Hnull Hbool Hint Hfloat Hstr Hlist Hobj in
  match j with
  | JNull => Hnull
  | JBool b => Hbool b
  | JInt z => Hint z
  | JFloat f => Hfloat f
  | JString s => Hstr s
  | JList l =>
      Hlist l ((fix go (l : list json) : Forall P l :=
                  match l with
                  | [] => Forall_nil P
                  | x :: r => Forall_cons x (rec x) (go r)
                  end) l)
  | JObject d =>
      Hobj d ((fix go (d : list (string * json))
                 : Forall (fun kv => P (snd kv)) d :=
                 match d with
                 | [] => Forall_nil _
                 | kv :: r => Forall_cons kv (rec (snd kv)) (go r)
                 end) d)
  end.

(** [d.get(key, default)] on a dict.  A dict is kept as the list of its
    key/value pairs in insertion order; keys are unique in Python, and the
    lookup takes the first pair with the key. *)
Fixpoint dict_get (d : list (string * json)) (key : string) (default : json)
  : json :=
  match d with
  | [] => default
  | (k, v) :: r => if String.eqb k key then v else dict_get r key default
  end.

(** The truth value of a Python object ([bool(x)]). *)
Definition truthy (x : json) : bool :=
  match x with
  | JNull => false
  | JBool b => b
  | JInt z => negb (z =? 0)%Z
  | JFloat f => negb ((float_text f =? "0.0") || (float_text f =? "-0.0"))
  | JString s => negb (s =? EmptyString)
  | JList l => match l with [] => false | _ => true end
  | JObject d => match d with [] => false | _ => true end
  end.

Module PyRepr.
Import PyStr.

(** [str.isprintable] fails below 256 on the C0 and C1 controls, DEL, the
    no-break space and the soft hyphen. *)
Definition is_printable (c : ascii) : bool :=
  let n := N_of_ascii c in
  ((32 <=? n) && (n <? 127) || (161 <=? n) && negb (n =? 173))%N.

Definition escape_char (quote : ascii) (c : ascii) : string :=
  if Ascii.eqb c quote || Ascii.eqb c "\"%char
  then String "\"%char (String c EmptyString)
  else if Ascii.eqb c "009"%char then "\t"
  else if Ascii.eqb c "010"%char then "\n"
  else if Ascii.eqb c "013"%char then "\r"
  else if is_printable c then String c EmptyString
  else "\x" ++ hex2 c.

Fixpoint escape (quote : ascii) (s : string) : string :=
  match s with
  | EmptyString => EmptyString
  | String c t => escape_char quote c ++ escape quote t
  end.

Definition has_char (c : ascii) (s : string) : bool :=
  negb (all_chars (fun x => negb (Ascii.eqb x c)) s).

(** [repr(s)] for a [str]: single quotes unless the text has a single
    quote and no double quote. *)
Definition repr_str (s : string) : string :=
  let quote : ascii :=
    if has_char "'"%char s && negb (has_char dquote s)
    then dquote else "'"%char in
  String quote (escape quote s ++ String quote EmptyString).

(** [repr(x)] *)
Fixpoint repr (x : json) : string :=
  match x with
  | JNull => "None"
  | JBool true => "True"
  | JBool false => "False"
  | JInt z => str_of_Z z
  | JFloat f => float_text f
  | JString s => repr_str s
  | JList l => "[" ++ join ", " (map repr l) ++ "]"
  | JObject d =>
      "{" ++ join ", " (map (fun kv => repr_str (fst kv) ++ ": " ++ repr (snd kv)) d)
          ++ "}"
  end.

(** [str(x)] *)
Definition str (x : json) : string :=
  match x with
  | JString s => s
  | _ => repr x
  end.

End PyRepr.

(* ===================================================================== *)
(** ** Exceptions *)
(* ===================================================================== *)

Inductive exn : Type :=
| AttributeError      (* [.get] or [.strip] on an object that has none *)
| JSONDecodeError     (* [json.loads] *)
| CollaboratorError   (* [RuntimeError] or [TimeoutExpired] of run_claude *)
| SystemExit          (* "PDF not found" *)
| OSError.            (* what [os.makedirs], [open], [f.write] or [print]
                         raises when it fails, whatever its class *)

Inductive result (A : Type) : Type :=
| Ok (a : A)
| Raise (e : exn).

Arguments Ok {A} a.
Arguments Raise {A} e.

Definition bind {A B : Type} (m : result A) (k : A -> result B) : result B :=
  match m with
  | Ok a => k a
  | Raise e => Raise e
  end.

Notation "x <- m ;; k" := (bind m (fun x => k))
  (at level 61, m at next level, right associativity).

Definition returns {A : Type} (m : result A) : bool :=
  match m with Ok _ => true | Raise _ => false end.

(* ===================================================================== *)
(** ** The functions of generate_plan.py *)
(* ===================================================================== *)

Import PyStr.

(** [x.get(key, default)] on an arbitrary value: only a dict has [get]. *)
Definition py_get (x : json) (key : string) (default : json) : result json :=
  match x with
  | JObject d => Ok (dict_get d key default)
  | _ => Raise AttributeError
  end.

Definition unknown_synonyms : list string :=
  ["unknown"; "n/a"; "na"; "not specified"; "not stated"].

Definition normalize_unknown (x : json) : string :=
  match x with
  | JNull => "Unknown"
  | JString x =>
      let s := strip x in
      if s =? EmptyString then "Unknown"
      else if existsb (String.eqb (lower s)) unknown_synonyms then "Unknown"
      else s
  | _ => PyRepr.str x
  end.

(** [q] is whatever [item.get("quote", "")] gave.  [(q or "")] keeps a
    true value as it is, and [.strip()] exists on a [str] only. *)
Definition normalize_quote (q : json) : result string :=
  match (if truthy q then q else JString EmptyString) with
  | JString s =>
      let q1 := strip s in
      let q2 := collapse_ws q1 in
      Ok (if (40 <? List.length (split_ws q2))%nat
          then join " " (firstn 40 (split_ws q2)) ++ "..."
          else q2)
  | _ => Raise AttributeError
  end.

(** [f"(p.{page}) \"{quote}\""] when [isinstance(page, int)]; [bool] is a
    subclass of [int] in Python. *)
Definition evidence_line (page : json) (quote : string) : string :=
  match page with
  | JInt z => "(p." ++ str_of_Z z ++ ") " ++ String dquote (quote ++ String dquote EmptyString)
  | JBool b => "(p." ++ PyRepr.str (JBool b) ++ ") " ++ String dquote (quote ++ String dquote EmptyString)
  | _ => "(p.?) " ++ String dquote (quote ++ String dquote EmptyString)
  end.

(** The loop of [format_evidence_list] over the entries. *)
Fixpoint format_evidence_items (l : list json) : result (list string) :=
  match l with
  | [] => Ok []
  | JObject item :: r =>
      let page := dict_get item "page" JNull in
      quote <- normalize_quote (dict_get item "quote" (JString EmptyString)) ;;
      if quote =? EmptyString then format_evidence_items r
      else lines <- format_evidence_items r ;;
           Ok (evidence_line page quote :: lines)
  | _ :: r => format_evidence_items r
  end.

Definition format_evidence_list (ev : json) : result (list string) :=
  match ev with
  | JList l => format_evidence_items l
  | _ => Ok []
  end.

(** [re.search(r"\(p\.(\d+)\)", line)]: the leftmost place where ["(p."],
    a non-empty run of digits and [")"] follow one another. *)
Fixpoint take_digits (s : string) : string * string :=
  match s with
  | EmptyString => (EmptyString, EmptyString)
  | String c t =>
      if is_digit c
      then let (ds, rest) := take_digits t in (String c ds, rest)
      else (EmptyString, s)
  end.

Definition page_here (s : string) : option string :=
  if starts_with "(p." s
  then let (ds, rest) := take_digits (drop 3 s) in
       if negb (ds =? EmptyString) && starts_with ")" rest then Some ds else None
  else None.

Fixpoint search_page (s : string) : option string :=
  match page_here s with
  | Some ds => Some ds
  | None => match s with
            | EmptyString => None
            | String _ t => search_page t
            end
  end.

Definition extract_page (evidence_line : string) : string :=
  match search_page evidence_line with
  | Some ds => ds
  | None => "?"
  end.

Definition extract_objective_text (plan : json) : result string :=
  obj <- py_get plan "objective" (JObject []) ;;
  match obj with
  | JObject o => Ok (normalize_unknown (dict_get o "text" JNull))
  | _ => Ok "Unknown"
  end.

Definition extract_objective_with_evidence (plan : json)
  : result (string * list string) :=
  obj <- py_get plan "objective" (JObject []) ;;
  match obj with
  | JObject o =>
      let text := normalize_unknown (dict_get o "text" JNull) in
      ev_lines <- format_evidence_list (dict_get o "evidence" (JList [])) ;;
      Ok (text, ev_lines)
  | _ => Ok ("Unknown", [])
  end.

(** The texts that the loop of [extract_list_text] appends to [items]. *)
Fixpoint surviving_texts (raw_items : list json) : list string :=
  match raw_items with
  | [] => []
  | JObject it :: r =>
      let t := normalize_unknown (dict_get it "text" JNull) in
      if t =? "Unknown" then surviving_texts r else t :: surviving_texts r
  | _ :: r => surviving_texts r
  end.

(** [[f"{i}. {t}\n" for i, t in enumerate(items, i)]] *)
Fixpoint numbered_from (i : nat) (items : list string) : list string :=
  match items with
  | [] => []
  | t :: r => (str_of_nat i ++ ". " ++ t ++ nl) :: numbered_from (S i) r
  end.

Definition extract_list_text (plan : json) (key : string) : result string :=
  sec <- py_get plan key (JObject []) ;;
  let items :=
    match sec with
    | JObject s =>
        match dict_get s "items" (JList []) with
        | JList raw_items => surviving_texts raw_items
        | _ => []
        end
    | _ => []
    end in
  match items with
  | [] => Ok "Unknown"
  | _ => Ok (strip (concat_all (numbered_from 1 items)))
  end.

(** [f"H{idx if key=='hypothesis' else 'M'+str(idx)} (p.{extract_page(e)}): {e}"] *)
Definition prefixed_line (key : string) (idx : nat) (e : string) : string :=
  "H" ++ (if key =? "hypothesis" then str_of_nat idx else "M" ++ str_of_nat idx)
      ++ " (p." ++ extract_page e ++ "): " ++ e.

(** The loop of [extract_list_evidence_lines]; [idx] counts every raw item,
    mappings or not.  (The source also normalises the item's text there and
    does not use it.) *)
Fixpoint list_evidence_loop (key : string) (idx : nat) (raw_items : list json)
  : result (list string) :=
  match raw_items with
  | [] => Ok []
  | JObject it :: r =>
      ev_lines <- format_evidence_list (dict_get it "evidence" (JList [])) ;;
      rest <- list_evidence_loop key (S idx) r ;;
      Ok (app (map (prefixed_line key idx) (firstn 2 ev_lines)) rest)
  | _ :: r => list_evidence_loop key (S idx) r
  end.

(** [ln.split(": ", 1)[-1] if ": " in ln else ln] *)
Definition unprefix (ln : string) : string :=
  if contains ": " ln then split1_last ": " ln else ln.

Definition extract_list_evidence_lines (plan : json) (key : string)
  : result (list string) :=
  sec <- py_get plan key (JObject []) ;;
  match sec with
  | JObject s =>
      match dict_get s "items" (JList []) with
      | JList raw_items =>
          lines <- list_evidence_loop key 1 raw_items ;;
          match lines with
          | [] => Ok []
          | _ => Ok (map unprefix lines)
          end
      | _ => Ok []
      end
  | _ => Ok []
  end.

(** The [block] built for one experiment, joined. *)
Definition experiment_block (include_evidence : bool)
    (name what_varied metric main_result : string) (ev_lines : list string)
  : string :=
  concat_all
    (app
       [ "### " ++ name ++ nl;
         "- What varied: " ++ what_varied ++ nl;
         "- Metric: " ++ metric ++ nl;
         "- Main result: " ++ main_result ++ nl ]
       (if include_evidence && negb (Nat.eqb (List.length ev_lines) 0)
        then ("- Evidence:" ++ nl)
             :: map (fun e => "  - " ++ e ++ nl) (firstn 2 ev_lines)
        else [])).

(** The loop of [extract_experiments_text]: the evidence of an item is
    formatted whether or not it will be shown. *)
Fixpoint experiment_blocks (include_evidence : bool) (raw_items : list json)
  : result (list string) :=
  match raw_items with
  | [] => Ok []
  | JObject it :: r =>
      let name := normalize_unknown (dict_get it "name" JNull) in
      if name =? "Unknown" then experiment_blocks include_evidence r
      else
        let what_varied := normalize_unknown (dict_get it "what_varied" JNull) in
        let metric := normalize_unknown (dict_get it "metric" JNull) in
        let main_result := normalize_unknown (dict_get it "main_result" JNull) in
        ev_lines <- format_evidence_list (dict_get it "evidence" (JList [])) ;;
        exps <- experiment_blocks include_evidence r ;;
        Ok (experiment_block include_evidence name what_varied metric
              main_result ev_lines :: exps)
  | _ :: r => experiment_blocks include_evidence r
  end.

Definition extract_experiments_text (plan : json) (include_evidence : bool)
  : result string :=
  sec <- py_get plan "experiments" (JObject []) ;;
  match sec with
  | JObject s =>
      match dict_get s "items" (JList []) with
      | JList [] => Ok "Unknown"
      | JList raw_items =>
          exps <- experiment_blocks include_evidence raw_items ;;
          match exps with
          | [] => Ok "Unknown"
          | _ => Ok (strip (join nl exps))
          end
      | _ => Ok "Unknown"
      end
  | _ => Ok "Unknown"
  end.

Definition render_plan_md_concise (plan : json) : result string :=
  obj <- extract_objective_text plan ;;
  hyp <- extract_list_text plan "hypothesis" ;;
  meth <- extract_list_text plan "methodology" ;;
  exps <- extract_experiments_text plan false ;;
  Ok (concat_all
        [ "# Plan" ++ nl;
          "## Objective" ++ nl;
          obj ++ nl ++ nl;
          "## Hypothesis" ++ nl;
          hyp ++ nl ++ nl;
          "## Methodology" ++ nl;
          meth ++ nl ++ nl;
          "## Experiments" ++ nl;
          exps ++ nl ]).

(** The pieces appended under [if lines:] after a section's text; the
    source writes this block out once per section. *)
Definition evidence_sublist (lines : list string) : list string :=
  match lines with
  | [] => []
  | _ => (nl ++ "**Evidence**:" ++ nl) :: map (fun ln => "- " ++ ln ++ nl) lines
  end.

(** The pieces appended after the ["## Unknowns"] heading. *)
Definition unknowns_lines (unknowns : list json) : list string :=
  match unknowns with
  | [] => [ "- (none)" ++ nl ]
  | _ => map (fun u => "- " ++ normalize_unknown u ++ nl) unknowns
  end.

Definition render_plan_md_with_evidence (plan : json) : result string :=
  oe <- extract_objective_with_evidence plan ;;
  let (obj_text, obj_ev) := oe in
  hyp_text <- extract_list_text plan "hypothesis" ;;
  hyp_ev_lines <- extract_list_evidence_lines plan "hypothesis" ;;
  meth_text <- extract_list_text plan "methodology" ;;
  meth_ev_lines <- extract_list_evidence_lines plan "methodology" ;;
  exps_text <- extract_experiments_text plan true ;;
  u <- py_get plan "unknowns" (JList []) ;;
  let unknowns := match u with JList l => l | _ => [] end in
  Ok (concat_all
        (List.concat
           [ [ "# Plan (with evidence)" ++ nl;
               "## Objective" ++ nl;
               obj_text ++ nl ];
             evidence_sublist obj_ev;
             [ nl;
               "## Hypothesis" ++ nl;
               hyp_text ++ nl ];
             evidence_sublist hyp_ev_lines;
             [ nl;
               "## Methodology" ++ nl;
               meth_text ++ nl ];
             evidence_sublist meth_ev_lines;
             [ nl;
               "## Experiments" ++ nl;
               exps_text ++ nl;
               nl ++ "## Unknowns" ++ nl ];
             unknowns_lines unknowns ])).

(* ===================================================================== *)
(** ** The prompt *)
(* ===================================================================== *)

(** [s] between double quotes. *)
Definition quoted (s : string) : string :=
  String dquote (s ++ String dquote EmptyString).

(** [json.dumps(schema, indent=2)] for the schema of [build_plan_prompt]. *)
Definition prompt_schema : string :=
  "{"
  ++ nl
  ++ "  " ++ quoted "objective" ++ ": {"
  ++ nl
  ++ "    " ++ quoted "text" ++ ": " ++ quoted "string|Unknown" ++ ","
  ++ nl
  ++ "    " ++ quoted "evidence" ++ ": ["
  ++ nl
  ++ "      {"
  ++ nl
  ++ "        " ++ quoted "page" ++ ": " ++ quoted "int" ++ ","
  ++ nl
  ++ "        " ++ quoted "quote" ++ ": " ++ quoted "string"
  ++ nl
  ++ "      }"
  ++ nl
  ++ "    ]"
  ++ nl
  ++ "  },"
  ++ nl
  ++ "  " ++ quoted "hypothesis" ++ ": {"
  ++ nl
  ++ "    " ++ quoted "items" ++ ": ["
  ++ nl
  ++ "      {"
  ++ nl
  ++ "        " ++ quoted "text" ++ ": " ++ quoted "string" ++ ","
  ++ nl
  ++ "        " ++ quoted "evidence" ++ ": ["
  ++ nl
  ++ "          {"
  ++ nl
  ++ "            " ++ quoted "page" ++ ": " ++ quoted "int" ++ ","
  ++ nl
  ++ "            " ++ quoted "quote" ++ ": " ++ quoted "string"
  ++ nl
  ++ "          }"
  ++ nl
  ++ "        ]"
  ++ nl
  ++ "      }"
  ++ nl
  ++ "    ],"
  ++ nl
  ++ "    " ++ quoted "Unknown_if_missing" ++ ": true"
  ++ nl
  ++ "  },"
  ++ nl
  ++ "  " ++ quoted "methodology" ++ ": {"
  ++ nl
  ++ "    " ++ quoted "items" ++ ": ["
  ++ nl
  ++ "      {"
  ++ nl
  ++ "        " ++ quoted "text" ++ ": " ++ quoted "string" ++ ","
  ++ nl
  ++ "        " ++ quoted "evidence" ++ ": ["
  ++ nl
  ++ "          {"
  ++ nl
  ++ "            " ++ quoted "page" ++ ": " ++ quoted "int" ++ ","
  ++ nl
  ++ "            " ++ quoted "quote" ++ ": " ++ quoted "string"
  ++ nl
  ++ "          }"
  ++ nl
  ++ "        ]"
  ++ nl
  ++ "      }"
  ++ nl
  ++ "    ],"
  ++ nl
  ++ "    " ++ quoted "Unknown_if_missing" ++ ": true"
  ++ nl
  ++ "  },"
  ++ nl
  ++ "  " ++ quoted "experiments" ++ ": {"
  ++ nl
  ++ "    " ++ quoted "items" ++ ": ["
  ++ nl
  ++ "      {"
  ++ nl
  ++ "        " ++ quoted "name" ++ ": " ++ quoted "string" ++ ","
  ++ nl
  ++ "        " ++ quoted "what_varied" ++ ": " ++ quoted "string|Unknown" ++ ","
  ++ nl
  ++ "        " ++ quoted "metric" ++ ": " ++ quoted "string|Unknown" ++ ","
  ++ nl
  ++ "        " ++ quoted "main_result" ++ ": " ++ quoted "string|Unknown" ++ ","
  ++ nl
  ++ "        " ++ quoted "evidence" ++ ": ["
  ++ nl
  ++ "          {"
  ++ nl
  ++ "            " ++ quoted "page" ++ ": " ++ quoted "int" ++ ","
  ++ nl
  ++ "            " ++ quoted "quote" ++ ": " ++ quoted "string"
  ++ nl
  ++ "          }"
  ++ nl
  ++ "        ]"
  ++ nl
  ++ "      }"
  ++ nl
  ++ "    ],"
  ++ nl
  ++ "    " ++ quoted "Unknown_if_missing" ++ ": true"
  ++ nl
  ++ "  },"
  ++ nl
  ++ "  " ++ quoted "unknowns" ++ ": ["
  ++ nl
  ++ "    " ++ quoted "string"
  ++ nl
  ++ "  ]"
  ++ nl
  ++ "}".

(** The lines of the prompt above the path of the PDF. *)
Definition prompt_intro : string :=
  "You are generating a structured Plan for a mechanistic interpretability paper to be evaluated by a standardized pipeline."
  ++ nl
  ++ nl
  ++ "You MUST read the PDF directly from this local path:".

(** The lines between the path and the word budget. *)
Definition prompt_rules : string :=
  nl
  ++ "Hard constraints:"
  ++ nl
  ++ "1) ONLY use information from the PDF. Do NOT use external knowledge."
  ++ nl
  ++ "2) Output MUST be valid JSON ONLY. No markdown, no commentary."
  ++ nl
  ++ "3) The final plan must be concise:"
  ++ nl
  ++ "   - Keep the combined length of objective+hypothesis+methodology+experiments summaries within ~".

(** The text between the word budget and the schema. *)
Definition prompt_more_rules : string :=
  " words."
  ++ nl
  ++ "   - Methodology must not be empty or too shallow: include the core approach, model/data setting if stated, key analysis/intervention techniques, and how claims are tested."
  ++ nl
  ++ "4) The output must have EXACTLY these four content sections:"
  ++ nl
  ++ "   - objective"
  ++ nl
  ++ "   - hypothesis"
  ++ nl
  ++ "   - methodology"
  ++ nl
  ++ "   - experiments"
  ++ nl
  ++ "   If a section cannot be found from the PDF, set it explicitly to " ++ quoted "Unknown" ++ " (or empty items with Unknown_if_missing honored)."
  ++ nl
  ++ "5) Evidence:"
  ++ nl
  ++ "   - For each hypothesis/methodology item and each experiment entry, include at least one evidence quote with page number."
  ++ nl
  ++ "   - Quotes must be short (<= 35 words) and plausibly verbatim from the PDF."
  ++ nl
  ++ "6) Experiments must be a separate section (NOT nested under methodology). Provide 2-6 experiments if present, else Unknown."
  ++ nl
  ++ "7) Add an " ++ quoted "unknowns" ++ " list for important missing details that a reproducer/evaluator would want but the PDF does not specify."
  ++ nl
  ++ nl
  ++ "Required JSON schema (types + keys). Follow it strictly:"
  ++ nl.

(** The text after the schema. *)
Definition prompt_end : string :=
  nl
  ++ nl
  ++ "Now produce the JSON.".

(** The f-string of [build_plan_prompt], stripped; [max_words] is an
    [int] and is printed in decimal. *)
Definition build_plan_prompt (pdf_path : string) (max_words : Z) : string :=
  strip (nl ++ prompt_intro ++ nl
         ++ pdf_path ++ nl
         ++ prompt_rules ++ str_of_Z max_words ++ prompt_more_rules
         ++ prompt_schema ++ prompt_end ++ nl).

(* ===================================================================== *)
(** ** The orchestrator *)
(* ===================================================================== *)

(** What a run does to the outside: it invokes the generator, creates the
    output directory, opens a file for writing (which creates it, or empties
    the one that is there), writes the content of the open file and closes
    it, prints a line. *)
Inductive event : Type :=
| Invoke (prompt : string)
| MakeDirs (path : string)
| OpenFile (path : string)
| WriteFile (path content : string)
| Print (line : string).

(** A computation that appends to the log of events and may raise; what
    was logged before an exception stays logged. *)
Definition Run (A : Type) : Type := list event -> list event * result A.

Definition run_ret {A : Type} (a : A) : Run A := fun log => (log, Ok a).

Definition run_bind {A B : Type} (m : Run A) (k : A -> Run B) : Run B :=
  fun log =>
    match m log with
    | (log', Ok a) => k a log'
    | (log', Raise e) => (log', Raise e)
    end.

Notation "x <<- m ;; k" := (run_bind m (fun x => k))
  (at level 61, m at next level, right associativity).

Definition run_raise {A : Type} (e : exn) : Run A := fun log => (log, Raise e).

Definition run_lift {A : Type} (r : result A) : Run A := fun log => (log, r).

(** [try: body  except Exception: handler] *)
Definition try_except {A : Type} (body : Run A) (handler : Run A) : Run A :=
  fun log =>
    match body log with
    | (log', Ok a) => (log', Ok a)
    | (log', Raise _) => handler log'
    end.

Definition is_invoke (ev : event) : bool :=
  match ev with Invoke _ => true | _ => false end.

(** The prompts sent to the generator, in order. *)
Definition invocations (log : list event) : list string :=
  flat_map (fun ev => match ev with Invoke p => [p] | _ => [] end) log.

(** The files written to the end, in order. *)
Definition writes (log : list event) : list (string * string) :=
  flat_map (fun ev => match ev with WriteFile p c => [(p, c)] | _ => [] end) log.

Definition is_file_event (ev : event) : bool :=
  match ev with OpenFile _ | WriteFile _ _ => true | _ => false end.

(** What happened to the output files, in order. *)
Definition file_events (log : list event) : list event :=
  filter is_file_event log.

Definition is_ascii_letter (c : ascii) : bool :=
  let n := N_of_ascii c in
  ((65 <=? n) && (n <=? 90) || (97 <=? n) && (n <=? 122))%N.

Fixpoint skip_letters (s : string) : string :=
  match s with
  | EmptyString => EmptyString
  | String c t => if is_ascii_letter c then skip_letters t else s
  end.

Definition fence : string := "```".

(** [re.sub(r"^```[a-zA-Z]*\n", "", t)] *)
Definition strip_open_fence (t : string) : string :=
  if starts_with fence t
  then match skip_letters (drop 3 t) with
       | String c r => if Ascii.eqb c "010"%char then r else t
       | EmptyString => t
       end
  else t.

(** [re.sub(r"\n```$", "", t)]: [$] is the end of the text, or the place
    before a line feed that ends the text. *)
Fixpoint strip_close_fence (t : string) : string :=
  if t =? nl ++ fence then EmptyString
  else if t =? nl ++ fence ++ nl then nl
  else match t with
       | EmptyString => EmptyString
       | String c r => String c (strip_close_fence r)
       end.

(** [os.path.join(a, b)] for a relative [b]. *)
Fixpoint ends_with_slash (a : string) : bool :=
  match a with
  | EmptyString => false
  | String c EmptyString => Ascii.eqb c "/"%char
  | String _ t => ends_with_slash t
  end.

Definition path_join (a b : string) : string :=
  if (a =? EmptyString) || ends_with_slash a then a ++ b else a ++ "/" ++ b.

Definition repair_prompt (prompt : string) : string :=
  prompt ++ nl ++ nl ++ "Your last output was not valid JSON. Return valid JSON ONLY.".

Section Orchestrator.

(** [json.loads] of the standard library, [None] when it raises. *)
Variable json_loads : string -> option json.

(** The surroundings of one run: whether the input file and the output
    directory exist, what the [n]-th invocation of the generator (counted
    from 0) gives on a prompt (its output, or an exception for a non-zero
    exit or a timeout), and which operations on the file system and on the
    standard output succeed: [io_ok] is asked about the creation of the
    directory, the opening and the writing of a file, and the printing of
    a line. *)
Variable pdf_exists : bool.
Variable out_dir_exists : bool.
Variable generator : nat -> string -> result string.
Variable io_ok : event -> bool.

(** An operation on the surroundings: it is logged when it succeeds, and
    raises otherwise, leaving no trace. *)
Definition perform (ev : event) : Run unit :=
  fun log => if io_ok ev then (app log [ev], Ok tt) else (log, Raise OSError).

(** [os.path.isdir(path)]: the empty path names no directory. *)
Definition isdir (path : string) : bool :=
  if path =? EmptyString then false else out_dir_exists.

(** [os.makedirs(path, exist_ok=True)]: FileNotFoundError on the empty
    path, and an error whenever the directory cannot be created. *)
Definition makedirs (path : string) : Run unit :=
  if path =? EmptyString then run_raise OSError else perform (MakeDirs path).

(** [with open(path, "w", encoding="utf-8") as f: f.write(content)]: when
    the write fails the file stays behind as [open] left it. *)
Definition write_file (path content : string) : Run unit :=
  _ <<- perform (OpenFile path) ;;
  perform (WriteFile path content).

(** [print(line)] *)
Definition print_line (line : string) : Run unit := perform (Print line).

Definition parse_json_strict (text : string) : result json :=
  let t := strip text in
  let t := if starts_with fence t
           then strip (strip_close_fence (strip_open_fence t))
           else t in
  match json_loads t with
  | Some plan => Ok plan
  | None => Raise JSONDecodeError
  end.

Definition run_claude (prompt : string) : Run string :=
  fun log =>
    (app log [Invoke prompt],
     generator (List.length (invocations log)) prompt).

(** [prompt] is the value of [build_plan_prompt(pdf_path, max_words)]. *)
Definition main (prompt out_dir : string) : Run unit :=
  if negb pdf_exists then run_raise SystemExit
  else
    _ <<- (if negb (isdir out_dir) then makedirs out_dir else run_ret tt) ;;
    output <<- run_claude prompt ;;
    plan <<- try_except
               (run_lift (parse_json_strict output))
               (output2 <<- run_claude (repair_prompt prompt) ;;
                run_lift (parse_json_strict output2)) ;;
    plan_md <<- run_lift (render_plan_md_concise plan) ;;
    plan_with_evidence_md <<- run_lift (render_plan_md_with_evidence plan) ;;
    let out_plan := path_join out_dir "plan.md" in
    let out_plan_e := path_join out_dir "plan_with_evidence.md" in
    _ <<- write_file out_plan plan_md ;;
    _ <<- write_file out_plan_e plan_with_evidence_md ;;
    _ <<- print_line ("Wrote: " ++ out_plan) ;;
    print_line ("Wrote: " ++ out_plan_e).

End Orchestrator.

(* ===================================================================== *)
(** ** Definitions for the statements *)
(* ===================================================================== *)

(** The first, respectively last, character exists and is not whitespace. *)
Definition first_nonspace (s : string) : bool :=
  match s with
  | EmptyString => false
  | String c _ => negb (is_space c)
  end.

Fixpoint last_nonspace (s : string) : bool :=
  match s with
  | EmptyString => false
  | String c EmptyString => negb (is_space c)
  | String _ t => last_nonspace t
  end.

(** The spec's word for the comparison with the placeholder words:
    equality after case folding. *)
Definition caseless_eq (a b : string) : Prop := lower a = lower b.

(** [plan.get(key, {})] followed by [.get("items", [])], with the empty
    list wherever a mapping or a list was expected and is not there. *)
Definition section_items (p : list (string * json)) (key : string) : list json :=
  match dict_get p key (JObject []) with
  | JObject s =>
      match dict_get s "items" (JList []) with
      | JList raw_items => raw_items
      | _ => []
      end
  | _ => []
  end.

(** The spec's description of the list: an item contributes its text when
    it is a mapping and the text does not normalize to "Unknown". *)
Definition spec_item_text (it : json) : option string :=
  match it with
  | JObject d =>
      let t := normalize_unknown (dict_get d "text" JNull) in
      if t =? "Unknown" then None else Some t
  | _ => None
  end.

Definition spec_surviving (raw_items : list json) : list string :=
  flat_map (fun it => match spec_item_text it with
                      | Some t => [t]
                      | None => []
                      end) raw_items.

(** Lines ["1. t1"], ["2. t2"], ... joined by line feeds. *)
Definition spec_numbered_list (ts : list string) : string :=
  join nl (map (fun it => str_of_nat (fst it) ++ ". " ++ snd it)
             (combine (seq 1 (List.length ts)) ts)).

Definition numbered_line (it : nat * string) : string :=
  str_of_nat (fst it) ++ ". " ++ snd it.

(** The spec's description of the collected lines: for each item that is a
    mapping, the first two lines of its formatted evidence, in order. *)
Fixpoint spec_capped_evidence (raw_items : list json) : result (list string) :=
  match raw_items with
  | [] => Ok []
  | JObject it :: r =>
      ev_lines <- format_evidence_list (dict_get it "evidence" (JList [])) ;;
      rest <- spec_capped_evidence r ;;
      Ok (app (firstn 2 ev_lines) rest)
  | _ :: r => spec_capped_evidence r
  end.

Definition is_object (x : json) : bool :=
  match x with JObject _ => true | _ => false end.

Definition is_list (x : json) : bool :=
  match x with JList _ => true | _ => false end.

Definition is_string (x : json) : bool :=
  match x with JString _ => true | _ => false end.

(** The canonical form of an evidence line. *)
Definition canonical_line (ln : string) : Prop :=
  exists page quote,
    ln = "(p." ++ page ++ ") " ++ String dquote (quote ++ String dquote EmptyString).

(** An experiment block as the spec describes it, given the evidence lines
    that are shown. *)
Definition spec_experiment_block (include_evidence : bool)
    (name what_varied metric main_result : string) (shown : list string)
  : string :=
  "### " ++ name ++ nl
  ++ "- What varied: " ++ what_varied ++ nl
  ++ "- Metric: " ++ metric ++ nl
  ++ "- Main result: " ++ main_result ++ nl
  ++ match shown with
     | [] => EmptyString
     | _ => if include_evidence
            then "- Evidence:" ++ nl
                 ++ concat_all (map (fun e => "  - " ++ e ++ nl) shown)
            else EmptyString
     end.

(** The spec's description of the experiments loop: an item that is a
    mapping with a name that does not normalize to "Unknown" gives one
    block, which shows the first two lines of the item's formatted evidence
    and no others; the loop raises where the formatter raises on such an
    item. *)
Fixpoint spec_capped_blocks (include_evidence : bool) (raw_items : list json)
  : result (list string) :=
  match raw_items with
  | [] => Ok []
  | JObject d :: r =>
      let name := normalize_unknown (dict_get d "name" JNull) in
      if name =? "Unknown" then spec_capped_blocks include_evidence r
      else
        ev_lines <- format_evidence_list (dict_get d "evidence" (JList [])) ;;
        rest <- spec_capped_blocks include_evidence r ;;
        Ok (spec_experiment_block include_evidence name
              (normalize_unknown (dict_get d "what_varied" JNull))
              (normalize_unknown (dict_get d "metric" JNull))
              (normalize_unknown (dict_get d "main_result" JNull))
              (firstn 2 ev_lines) :: rest)
  | _ :: r => spec_capped_blocks include_evidence r
  end.

Definition not_colon (c : ascii) : bool := negb (Ascii.eqb c ":"%char).

(** A quote that [normalize_quote] accepts: a [str], or a value that
    [(q or "")] replaces by the empty text. *)
Definition quote_ok (q : json) : bool :=
  match q with
  | JString _ => true
  | _ => negb (truthy q)
  end.

Definition entry_ok (item : json) : bool :=
  match item with
  | JObject d => quote_ok (dict_get d "quote" (JString EmptyString))
  | _ => true
  end.

Definition evidence_ok (ev : json) : bool :=
  match ev with
  | JList l => forallb entry_ok l
  | _ => true
  end.

(** The evidence of an objective, an item or an experiment, when that is a
    mapping, has accepted quotes only. *)
Definition item_ok (it : json) : bool :=
  match it with
  | JObject d => evidence_ok (dict_get d "evidence" (JList []))
  | _ => true
  end.

Definition plan_quotes_ok (p : list (string * json)) : bool :=
  item_ok (dict_get p "objective" (JObject []))
  && forallb item_ok (section_items p "hypothesis")
  && forallb item_ok (section_items p "methodology")
  && forallb item_ok (section_items p "experiments").

(** The end-to-end example of the spec, with evidence on its items. *)
Definition sample_evidence : json :=
  JList [ JObject [("page", JInt 3); ("quote", JString "long-range  dependencies")];
          JObject [("quote", JString "carry chains")];
          JObject [("page", JInt 7); ("quote", JNull)] ].

Definition sample_plan : list (string * json) :=
  [ ("objective",
     JObject [("text", JString "Determine why transformers fail at multi-digit multiplication");
              ("evidence", sample_evidence)]);
    ("hypothesis", JObject [("items", JList [])]);
    ("methodology",
     JObject [("items",
               JList [JObject [("text", JString "Reverse-engineer attention circuits");
                               ("evidence", sample_evidence)]])]);
    ("experiments",
     JObject [("items",
               JList [JObject [("name", JString "Digit-length sweep");
                               ("metric", JString "exact-match accuracy");
                               ("evidence", sample_evidence)]])]);
    ("unknowns", JList []) ].

(** The four headed sections of the concise document around the extractor
    texts. *)
Definition concise_layout (obj hyp meth exps : string) : string :=
  "# Plan" ++ nl
  ++ "## Objective" ++ nl ++ obj ++ nl ++ nl
  ++ "## Hypothesis" ++ nl ++ hyp ++ nl ++ nl
  ++ "## Methodology" ++ nl ++ meth ++ nl ++ nl
  ++ "## Experiments" ++ nl ++ exps ++ nl.

Definition not_nl (c : ascii) : bool := negb (Ascii.eqb c "010"%char).

(** The evidence document around the extractor results. *)
Definition evidence_layout (obj_text : string) (obj_ev : list string)
    (hyp_text : string) (hyp_ev : list string)
    (meth_text : string) (meth_ev : list string)
    (exps_text : string) (unknowns : list json) : string :=
  "# Plan (with evidence)" ++ nl
  ++ "## Objective" ++ nl ++ obj_text ++ nl
  ++ concat_all (evidence_sublist obj_ev) ++ nl
  ++ "## Hypothesis" ++ nl ++ hyp_text ++ nl
  ++ concat_all (evidence_sublist hyp_ev) ++ nl
  ++ "## Methodology" ++ nl ++ meth_text ++ nl
  ++ concat_all (evidence_sublist meth_ev) ++ nl
  ++ "## Experiments" ++ nl ++ exps_text ++ nl
  ++ nl ++ "## Unknowns" ++ nl
  ++ concat_all (unknowns_lines unknowns).

(** The spec's description of the lines under the Unknowns heading. *)
Definition spec_unknowns_section (u : json) : string :=
  match u with
  | JList (x :: l) =>
      concat_all (map (fun v => "- " ++ normalize_unknown v ++ nl) (x :: l))
  | _ => "- (none)" ++ nl
  end.

(** The spec's description of the formatter without any cap: one line for
    each entry that is a mapping and whose normalized quote is not empty. *)
Definition spec_entry_line (item : json) : list string :=
  match item with
  | JObject d =>
      match normalize_quote (dict_get d "quote" (JString EmptyString)) with
      | Ok quote =>
          if quote =? EmptyString then []
          else [evidence_line (dict_get d "page" JNull) quote]
      | Raise _ => []
      end
  | _ => []
  end.

Definition spec_all_lines (ev : json) : list string :=
  match ev with
  | JList l => flat_map spec_entry_line l
  | _ => []
  end.

(** The value under [objective.evidence], [None] when the objective is not
    a mapping. *)
Definition objective_evidence (p : list (string * json)) : json :=
  match dict_get p "objective" (JObject []) with
  | JObject o => dict_get o "evidence" (JList [])
  | _ => JNull
  end.

(** The lines of an item's evidence, none when the formatter raises. *)
Definition lines_of (ev : json) : list string :=
  match format_evidence_list ev with
  | Ok lines => lines
  | Raise _ => []
  end.

(** The spec's description of the experiment blocks: an item that is a
    mapping with a name that does not normalize to "Unknown" gives one
    block, with each field normalized on its own and, where evidence is
    asked for, the first two evidence lines. *)
Definition spec_experiment_blocks (include_evidence : bool)
    (raw_items : list json) : list string :=
  flat_map
    (fun it =>
       match it with
       | JObject d =>
           let name := normalize_unknown (dict_get d "name" JNull) in
           if name =? "Unknown" then []
           else [ spec_experiment_block include_evidence name
                    (normalize_unknown (dict_get d "what_varied" JNull))
                    (normalize_unknown (dict_get d "metric" JNull))
                    (normalize_unknown (dict_get d "main_result" JNull))
                    (firstn 2 (lines_of (dict_get d "evidence" (JList [])))) ]
       | _ => []
       end)
    raw_items.

(** The spec's description of a normalized quote: the words of the text
    joined by single spaces, cut to the first 40 words and the marker when
    there are more. *)
Definition spec_quote (s : string) : string :=
  let ws := split_ws s in
  if (40 <? List.length ws)%nat
  then join " " (firstn 40 ws) ++ "..."
  else join " " ws.

(** A word: not empty and without whitespace. *)
Definition is_word (w : string) : bool :=
  negb (w =? EmptyString) && all_chars (fun c => negb (is_space c)) w.

(** The collapsed text of what is left of [t] once its trailing
    whitespace is gone, read after a word ([false]) or after whitespace
    ([true]). *)
Definition tail_text (in_run : bool) (t : string) : string :=
  collapse_from in_run (rstrip t).

(** No placeholder word starts as a text does whose first character,
    lower-cased, is neither [u] nor [n]. *)
Definition placeholder_head (t : string) : bool :=
  match t with
  | EmptyString => false
  | String c _ =>
      Ascii.eqb (lower_char c) "u"%char || Ascii.eqb (lower_char c) "n"%char
  end.

Definition is_int_char (c : ascii) : bool :=
  is_digit c || Ascii.eqb c "-"%char.

(** A character that does not break a line of Markdown: anything but
    whitespace, or the plain space. *)
Definition plain_char (c : ascii) : bool :=
  negb (is_space c) || Ascii.eqb c " "%char.

(** [ws] with ["..."] added to its last word. *)
Fixpoint mark_last (ws : list string) : list string :=
  match ws with
  | [] => []
  | [w] => [w ++ "..."]
  | w :: r => w :: mark_last r
  end.

(** The words of a normalized quote: those of the text, or the first 40
    with the marker on the last. *)
Definition quote_words (s : string) : list string :=
  let ws := split_ws s in
  if (40 <? List.length ws)%nat then mark_last (firstn 40 ws) else ws.

(** An experiment that is rendered: a mapping whose name does not
    normalize to "Unknown". *)
Definition has_name (it : json) : bool :=
  match it with
  | JObject d => negb (normalize_unknown (dict_get d "name" JNull) =? "Unknown")
  | _ => false
  end.

(** An item that is listed: a mapping whose text does not normalize to
    "Unknown". *)
Definition has_text (it : json) : bool :=
  match it with
  | JObject d => negb (normalize_unknown (dict_get d "text" JNull) =? "Unknown")
  | _ => false
  end.

(** The output directory is there when the generator is to be invoked: it
    has a name, and it existed or could be created. *)
Definition dir_ready (out_dir_exists : bool) (io_ok : event -> bool)
    (out_dir : string) : bool :=
  negb (out_dir =? EmptyString) && (out_dir_exists || io_ok (MakeDirs out_dir)).

(** Surroundings in which everything goes well up to the second output
    file, which cannot be opened (a directory of that name, or a file that
    may not be written): [json.loads] on the text of the empty mapping, a
    generator that answers with that text. *)
Definition sample_loads (t : string) : option json :=
  if t =? "{}" then Some (JObject []) else None.

Definition sample_generator (n : nat) (prompt : string) : result string :=
  Ok "{}".

Definition second_open_fails (ev : event) : bool :=
  match ev with
  | OpenFile p => negb (p =? "out/plan_with_evidence.md")
  | _ => true
  end.

(* ===================================================================== *)
(** ** Facts about the string operations *)
(* ===================================================================== *)

Module PyStrFacts.

Lemma app_empty_r (s : string) : s ++ EmptyString = s.
Proof. induction s as [|c t IH]; simpl; [reflexivity | now rewrite IH]. Qed.

Lemma app_assoc (a b c : string) : (a ++ b) ++ c = a ++ (b ++ c).
Proof. induction a as [|x t IH]; simpl; [reflexivity | now rewrite IH]. Qed.

(** Both sides of an equation between concatenations, associated to the
    right. *)
Ltac str_norm :=
  repeat first [rewrite app_assoc | progress cbn [append]].

Lemma join_cons (sep x : string) (l : list string) :
  l <> [] -> join sep (x :: l) = x ++ sep ++ join sep l.
Proof. destruct l; [congruence | reflexivity]. Qed.

Lemma all_chars_app (p : ascii -> bool) (a b : string) :
  all_chars p (a ++ b) = all_chars p a && all_chars p b.
Proof.
  induction a as [|x t IH]; simpl; [reflexivity|].
  rewrite IH. now rewrite andb_assoc.
Qed.

Lemma all_chars_weaken (p q : ascii -> bool) (s : string) :
  (forall c, p c = true -> q c = true) ->
  all_chars p s = true -> all_chars q s = true.
Proof.
  intros Hpq. induction s as [|c t IH]; simpl; [reflexivity|].
  intros H. apply andb_true_iff in H as [Hc Ht].
  apply andb_true_iff. split; auto.
Qed.

Lemma last_nonspace_cons (c : ascii) (t : string) :
  last_nonspace t = true -> last_nonspace (String c t) = true.
Proof. destruct t; simpl; [discriminate | trivial]. Qed.

Lemma last_nonspace_app (a b : string) :
  last_nonspace b = true -> last_nonspace (a ++ b) = true.
Proof.
  intros Hb. induction a as [|x t IH]; simpl; [exact Hb|].
  destruct (t ++ b) eqn:E; [simpl in IH; discriminate | exact IH].
Qed.

Lemma last_nonspace_all (p : ascii -> bool) (s : string) :
  (forall c, p c = true -> is_space c = false) ->
  all_chars p s = true -> s <> EmptyString -> last_nonspace s = true.
Proof.
  intros Hp. induction s as [|c t IH]; intros Hall Hne; [congruence|].
  simpl in Hall. apply andb_true_iff in Hall as [Hc Ht].
  destruct t as [|d u].
  - simpl. now rewrite (Hp _ Hc).
  - apply last_nonspace_cons. apply IH; [exact Ht | discriminate].
Qed.

Lemma lstrip_first (s : string) :
  first_nonspace s = true -> lstrip s = s.
Proof.
  destruct s as [|c t]; simpl; [discriminate|].
  intros H. apply negb_true_iff in H. now rewrite H.
Qed.

Lemma rstrip_tight (s : string) :
  last_nonspace s = true -> rstrip s = s.
Proof.
  induction s as [|c t IH]; [discriminate|].
  destruct t as [|d u].
  - cbn. intros H. apply negb_true_iff in H. now rewrite H.
  - intros H. change (last_nonspace (String d u) = true) in H.
    specialize (IH H).
    change (rstrip (String c (String d u)))
      with (match rstrip (String d u) with
            | EmptyString => if is_space c then EmptyString else String c EmptyString
            | String a r => String c (String a r)
            end).
    rewrite IH. reflexivity.
Qed.

Lemma rstrip_spaces (b : string) :
  all_chars is_space b = true -> rstrip b = EmptyString.
Proof.
  induction b as [|c t IH]; simpl; [reflexivity|].
  intros H. apply andb_true_iff in H as [Hc Ht].
  rewrite (IH Ht). now rewrite Hc.
Qed.

Lemma rstrip_app_spaces (a b : string) :
  all_chars is_space b = true -> rstrip (a ++ b) = rstrip a.
Proof.
  intros Hb. induction a as [|x t IH]; simpl.
  - now apply rstrip_spaces.
  - now rewrite IH.
Qed.

Lemma rstrip_last (s : string) :
  rstrip s = EmptyString \/ last_nonspace (rstrip s) = true.
Proof.
  induction s as [|c t IH]; simpl; [now left|].
  destruct IH as [E|E].
  - rewrite E. destruct (is_space c) eqn:Hc; [now left|].
    right. simpl. now rewrite Hc.
  - right. destruct (rstrip t) eqn:R; [discriminate|].
    now apply last_nonspace_cons.
Qed.

Lemma rstrip_first (s : string) :
  first_nonspace s = true -> first_nonspace (rstrip s) = true.
Proof.
  destruct s as [|c t]; simpl; [discriminate|].
  intros H. destruct (rstrip t).
  - apply negb_true_iff in H. rewrite H. simpl. now rewrite H.
  - exact H.
Qed.

Lemma lstrip_split (s : string) :
  exists l, s = l ++ lstrip s /\ all_chars is_space l = true
            /\ (lstrip s = EmptyString \/ first_nonspace (lstrip s) = true).
Proof.
  induction s as [|c t (l & E & Hl & Hf)]; simpl.
  - exists EmptyString. auto.
  - destruct (is_space c) eqn:Hc.
    + exists (String c l). simpl. rewrite Hc, Hl. rewrite <- E. auto.
    + exists EmptyString. simpl. rewrite Hc. auto.
Qed.

Lemma rstrip_split (s : string) :
  exists r, s = rstrip s ++ r /\ all_chars is_space r = true.
Proof.
  induction s as [|c t (r & E & Hr)]; simpl.
  - exists EmptyString. auto.
  - destruct (rstrip t) eqn:R.
    + destruct (is_space c) eqn:Hc.
      * exists (String c t). simpl. rewrite Hc. split; [reflexivity|].
        simpl in E. now rewrite E.
      * exists t. simpl. split; [reflexivity|]. simpl in E. now rewrite E.
    + exists r. simpl. split; [| exact Hr]. simpl in E. now rewrite <- E.
Qed.

(** What [strip] does: it removes a whitespace prefix and a whitespace
    suffix, and what is left neither starts nor ends with whitespace. *)
Lemma strip_spec (s : string) :
  exists l r,
    s = l ++ strip s ++ r
    /\ all_chars is_space l = true /\ all_chars is_space r = true
    /\ (strip s = EmptyString
        \/ first_nonspace (strip s) = true /\ last_nonspace (strip s) = true).
Proof.
  unfold strip.
  destruct (lstrip_split s) as (l & El & Hl & Hf).
  destruct (rstrip_split (lstrip s)) as (r & Er & Hr).
  exists l, r. repeat split; auto.
  - now rewrite <- Er.
  - destruct (rstrip_last (lstrip s)) as [E|E]; [now left|].
    right. split; [| exact E].
    destruct Hf as [Hf|Hf]; [rewrite Hf in E; discriminate|].
    now apply rstrip_first.
Qed.

Lemma strip_last (s : string) :
  strip s <> EmptyString -> last_nonspace (strip s) = true.
Proof.
  intros H. destruct (rstrip_last (lstrip s)) as [E|E]; [contradiction | exact E].
Qed.

(** Stripping a text that starts and ends with a non-whitespace character,
    followed by whitespace, gives the text back. *)
Lemma strip_tight_app (x b : string) :
  first_nonspace x = true -> last_nonspace x = true ->
  all_chars is_space b = true -> strip (x ++ b) = x.
Proof.
  intros Hf Hl Hb. unfold strip.
  rewrite lstrip_first.
  - rewrite rstrip_app_spaces by exact Hb. now apply rstrip_tight.
  - destruct x; [discriminate | exact Hf].
Qed.

End PyStrFacts.

(* ===================================================================== *)
(** ** Facts about printed values *)
(* ===================================================================== *)

Module PrintFacts.
Import PyStrFacts.

Lemma digit_not_space (c : ascii) : is_digit c = true -> is_space c = false.
Proof.
  destruct c as [[] [] [] [] [] [] [] []]; vm_compute; congruence.
Qed.

Lemma float_char_not_space (c : ascii) :
  is_float_char c = true -> is_space c = false.
Proof.
  destruct c as [[] [] [] [] [] [] [] []]; vm_compute; congruence.
Qed.

Lemma digit_is_float_char (c : ascii) :
  is_digit c = true -> is_float_char c = true.
Proof. unfold is_float_char. intros ->. reflexivity. Qed.

Lemma uint_digits (d : Decimal.uint) :
  all_chars is_digit (NilEmpty.string_of_uint d) = true.
Proof. induction d; simpl; auto. Qed.

Lemma str_of_uint_digits (d : Decimal.uint) :
  all_chars is_digit (NilZero.string_of_uint d) = true
  /\ NilZero.string_of_uint d <> EmptyString.
Proof.
  split.
  - destruct d; try apply uint_digits. reflexivity.
  - destruct d; simpl; discriminate.
Qed.

Lemma str_of_nat_digits (n : nat) :
  all_chars is_digit (str_of_nat n) = true /\ str_of_nat n <> EmptyString.
Proof. apply str_of_uint_digits. Qed.

Lemma str_of_nat_first (n : nat) (s : string) :
  first_nonspace (str_of_nat n ++ s) = true.
Proof.
  destruct (str_of_nat_digits n) as [Hd Hne].
  destruct (str_of_nat n) as [|c t]; [congruence|].
  simpl in *. apply andb_true_iff in Hd as [Hc _].
  now rewrite (digit_not_space _ Hc).
Qed.

Lemma str_of_Z_chars (z : Z) :
  all_chars is_float_char (str_of_Z z) = true /\ str_of_Z z <> EmptyString.
Proof.
  unfold str_of_Z.
  destruct (Z.to_int z) as [d|d]; simpl.
  - destruct (str_of_uint_digits d) as [Hd Hne]. split; [| exact Hne].
    revert Hd. apply all_chars_weaken, digit_is_float_char.
  - split; [| discriminate].
    destruct (str_of_uint_digits d) as [Hd _].
    revert Hd. apply all_chars_weaken, digit_is_float_char.
Qed.

Lemma float_text_last (f : pyfloat) : last_nonspace (float_text f) = true.
Proof.
  destruct f as [s wf]. simpl. unfold float_text_ok in wf.
  apply andb_true_iff in wf as [Hne Hall].
  apply last_nonspace_all with (p := is_float_char).
  - apply float_char_not_space.
  - exact Hall.
  - intros ->. discriminate.
Qed.

(** [str(x)] of anything but a [str] ends with a visible character. *)
Lemma repr_last (x : json) :
  (forall s, x <> JString s) -> last_nonspace (PyRepr.repr x) = true.
Proof.
  destruct x as [|[]|z|f|s|l|d]; intros Hx; try reflexivity.
  - simpl. destruct (str_of_Z_chars z) as [Hall Hne].
    now apply last_nonspace_all with (p := is_float_char);
      [apply float_char_not_space | |].
  - apply float_text_last.
  - now elim (Hx s).
  - change (PyRepr.repr (JList l))
      with (String "["%char (join ", " (map PyRepr.repr l) ++ "]")).
    apply last_nonspace_cons. now apply last_nonspace_app.
  - change (last_nonspace
              (String "{"%char
                 (join ", "
                    (map (fun kv => PyRepr.repr_str (fst kv) ++ ": "
                                      ++ PyRepr.repr (snd kv)) d) ++ "}")) = true).
    apply last_nonspace_cons. now apply last_nonspace_app.
Qed.

Lemma normalize_unknown_last (x : json) :
  last_nonspace (normalize_unknown x) = true.
Proof.
  destruct x as [|b|z|f|s|l|d];
    try (apply repr_last; intros s0; discriminate); try reflexivity.
  unfold normalize_unknown.
  destruct (strip s =? EmptyString) eqn:E; [reflexivity|].
  destruct (existsb (String.eqb (lower (strip s))) unknown_synonyms);
    [reflexivity|].
  apply strip_last. now apply String.eqb_neq.
Qed.

End PrintFacts.

(* ===================================================================== *)
(** ** The normalizer *)
(* ===================================================================== *)

Lemma synonym_test (t : string) :
  existsb (String.eqb (lower t)) unknown_synonyms = true
  <-> exists w,
        In w ["unknown"; "n/a"; "na"; "not specified"; "not stated"]
        /\ caseless_eq t w.
Proof.
  unfold caseless_eq. split.
  - intros H. apply existsb_exists in H as (w & Hin & Hw).
    exists w. split; [exact Hin|].
    apply String.eqb_eq in Hw. rewrite Hw.
    simpl in Hin.
    repeat (destruct Hin as [<- | Hin]; [reflexivity|]). contradiction.
  - intros (w & Hin & Hw). apply existsb_exists.
    exists w. split; [exact Hin|]. apply String.eqb_eq. rewrite Hw.
    simpl in Hin.
    repeat (destruct Hin as [<- | Hin]; [reflexivity|]). contradiction.
Qed.

(** C9.  [normalize_unknown] maps None to "Unknown"; a string is trimmed
    ([strip] removes a whitespace prefix and suffix and leaves a text that
    neither starts nor ends with whitespace) and maps to "Unknown" when the
    trimmed text is empty or equal, ignoring case, to one of unknown, n/a,
    na, not specified, not stated, and to the trimmed text otherwise; every
    other value maps to its string representation; the function is total.
    The five sample values of the spec are as it gives them. *)
Theorem normalize_unknown_contract :
  normalize_unknown JNull = "Unknown"
  /\ (forall s : string,
        exists l r,
          s = l ++ strip s ++ r
          /\ all_chars is_space l = true /\ all_chars is_space r = true
          /\ (strip s = EmptyString
              \/ first_nonspace (strip s) = true
                 /\ last_nonspace (strip s) = true))
  /\ (forall s : string,
        let placeholder :=
          strip s = EmptyString
          \/ exists w,
               In w ["unknown"; "n/a"; "na"; "not specified"; "not stated"]
               /\ caseless_eq (strip s) w in
        (placeholder /\ normalize_unknown (JString s) = "Unknown")
        \/ (~ placeholder /\ normalize_unknown (JString s) = strip s))
  /\ (forall x : json,
        match x with
        | JNull | JString _ => True
        | _ => normalize_unknown x = PyRepr.str x
        end)
  /\ normalize_unknown (JString "  ") = "Unknown"
  /\ normalize_unknown (JString "N/A") = "Unknown"
  /\ normalize_unknown (JString "Causal tracing") = "Causal tracing"
  /\ normalize_unknown (JInt 3) = "3".
Proof.
  split; [reflexivity|].
  split; [exact PyStrFacts.strip_spec|].
  split.
  { intros s placeholder. subst placeholder. unfold normalize_unknown.
    destruct (strip s =? EmptyString) eqn:E.
    - left. apply String.eqb_eq in E. auto.
    - apply String.eqb_neq in E.
      destruct (existsb (String.eqb (lower (strip s))) unknown_synonyms) eqn:S.
      + left. split; [| reflexivity]. right. now apply synonym_test.
      + right. split; [| reflexivity].
        intros [H|H]; [contradiction|].
        apply synonym_test in H. congruence. }
  split; [intros []; trivial|].
  repeat split; reflexivity.
Qed.

(* ===================================================================== *)
(** ** The numbered list of a hypothesis or methodology section *)
(* ===================================================================== *)

Module ListTextFacts.
Import PyStrFacts PrintFacts.

Lemma surviving_texts_spec (raw_items : list json) :
  surviving_texts raw_items = spec_surviving raw_items.
Proof.
  induction raw_items as [|it r IH]; [reflexivity|].
  destruct it; simpl; try exact IH.
  destruct (normalize_unknown (dict_get d "text" JNull) =? "Unknown");
    simpl; now rewrite IH.
Qed.

Lemma surviving_texts_last (raw_items : list json) :
  Forall (fun t => last_nonspace t = true) (surviving_texts raw_items).
Proof.
  induction raw_items as [|it r IH]; [constructor|].
  destruct it; simpl; try exact IH.
  destruct (normalize_unknown (dict_get d "text" JNull) =? "Unknown");
    [exact IH|].
  constructor; [apply normalize_unknown_last | exact IH].
Qed.

Lemma concat_all_cons (x : string) (l : list string) :
  concat_all (x :: l) = x ++ concat_all l.
Proof.
  unfold concat_all. destruct l; simpl; [now rewrite app_empty_r | reflexivity].
Qed.

Lemma numbered_from_join (ts : list string) : forall i,
  ts <> [] ->
  concat_all (numbered_from i ts)
  = join nl (map numbered_line (combine (seq i (List.length ts)) ts)) ++ nl.
Proof.
  induction ts as [|t r IH]; intros i Hne; [congruence|].
  cbn [numbered_from]. rewrite concat_all_cons.
  destruct r as [|t' r'].
  - cbn. unfold numbered_line. cbn [fst snd].
    rewrite app_empty_r. str_norm. reflexivity.
  - rewrite IH by discriminate.
    change (map numbered_line
              (combine (seq i (List.length (t :: t' :: r'))) (t :: t' :: r')))
      with (numbered_line (i, t)
              :: map numbered_line
                   (combine (seq (S i) (List.length (t' :: r'))) (t' :: r'))).
    rewrite join_cons by (simpl; discriminate).
    set (J := join nl _).
    unfold numbered_line. cbn [fst snd]. str_norm. reflexivity.
Qed.

Lemma numbered_join_first (ts : list string) (i : nat) :
  ts <> [] ->
  first_nonspace
    (join nl (map numbered_line (combine (seq i (List.length ts)) ts))) = true.
Proof.
  destruct ts as [|t r]; [congruence|]. intros _.
  change (map numbered_line
            (combine (seq i (List.length (t :: r))) (t :: r)))
    with (numbered_line (i, t)
            :: map numbered_line (combine (seq (S i) (List.length r)) r)).
  destruct (map numbered_line (combine (seq (S i) (List.length r)) r)).
  - cbn [join]. unfold numbered_line. cbn [fst snd]. apply str_of_nat_first.
  - rewrite join_cons by discriminate.
    unfold numbered_line at 1. cbn [fst snd]. rewrite app_assoc.
    apply str_of_nat_first.
Qed.

Lemma numbered_join_last (ts : list string) : forall i,
  ts <> [] -> Forall (fun t => last_nonspace t = true) ts ->
  last_nonspace
    (join nl (map numbered_line (combine (seq i (List.length ts)) ts))) = true.
Proof.
  induction ts as [|t r IH]; intros i Hne Hall; [congruence|].
  inversion Hall as [|? ? Ht Hr]; subst.
  destruct r as [|t' r'].
  - cbn. unfold numbered_line. cbn [fst snd].
    rewrite <- app_assoc. now apply last_nonspace_app.
  - change (map numbered_line
              (combine (seq i (List.length (t :: t' :: r'))) (t :: t' :: r')))
      with (numbered_line (i, t)
              :: map numbered_line
                   (combine (seq (S i) (List.length (t' :: r'))) (t' :: r'))).
    rewrite join_cons by (simpl; discriminate).
    rewrite <- app_assoc. apply last_nonspace_app.
    apply (IH (S i)); [discriminate | exact Hr].
Qed.

Lemma strip_numbered (ts : list string) :
  ts <> [] -> Forall (fun t => last_nonspace t = true) ts ->
  strip (concat_all (numbered_from 1 ts)) = spec_numbered_list ts.
Proof.
  intros Hne Hall. rewrite numbered_from_join by exact Hne.
  apply strip_tight_app.
  - now apply numbered_join_first.
  - now apply numbered_join_last.
  - reflexivity.
Qed.

Lemma extract_list_text_eq (p : list (string * json)) (key : string) :
  extract_list_text (JObject p) key
  = Ok (match spec_surviving (section_items p key) with
        | [] => "Unknown"
        | ts => spec_numbered_list ts
        end).
Proof.
  unfold extract_list_text, py_get, bind, section_items.
  assert (Hraw : forall raw,
    match surviving_texts raw with
    | [] => Ok "Unknown"
    | _ :: _ => Ok (strip (concat_all (numbered_from 1 (surviving_texts raw))))
    end
    = Ok (match spec_surviving raw with
          | [] => "Unknown"
          | _ :: _ => spec_numbered_list (spec_surviving raw)
          end)).
  { intros raw. rewrite <- surviving_texts_spec.
    pose proof (surviving_texts_last raw) as Hall.
    destruct (surviving_texts raw) as [|t r] eqn:E; [reflexivity|].
    rewrite strip_numbered; [reflexivity | discriminate | exact Hall]. }
  destruct (dict_get p key (JObject [])) as [| | | | |l|s]; try reflexivity.
  destruct (dict_get s "items" (JList [])) as [| | | | |raw|]; try reflexivity.
  specialize (Hraw raw).
  destruct (surviving_texts raw); destruct (spec_surviving raw);
    exact Hraw.
Qed.

End ListTextFacts.

(** C2.  For a Plan mapping, [extract_list_text] returns the numbered list
    of the texts of those items that are mappings and whose text does not
    normalize to "Unknown": the surviving texts keep their order and are
    numbered 1, 2, ... without gaps, one per line; with no surviving item
    the result is "Unknown".  Items whose texts are u1, "A", u2, "B" with u1
    and u2 normalizing to "Unknown" give the two lines "1. A" and "2. B".
    This holds for every key, hypothesis and methodology among them. *)
Theorem extract_list_text_numbered (p : list (string * json)) (key : string) :
  extract_list_text (JObject p) key
  = Ok (match spec_surviving (section_items p key) with
        | [] => "Unknown"
        | ts => spec_numbered_list ts
        end)
  /\ (forall u1 u2 : json,
        normalize_unknown u1 = "Unknown" ->
        normalize_unknown u2 = "Unknown" ->
        extract_list_text
          (JObject
             [(key, JObject
                      [("items",
                        JList [JObject [("text", u1)];
                               JObject [("text", JString "A")];
                               JObject [("text", u2)];
                               JObject [("text", JString "B")]])])])
          key
        = Ok ("1. A" ++ nl ++ "2. B")).
Proof.
  split; [apply ListTextFacts.extract_list_text_eq|].
  intros u1 u2 H1 H2. rewrite ListTextFacts.extract_list_text_eq.
  unfold section_items. cbn [dict_get]. rewrite String.eqb_refl.
  cbn [dict_get String.eqb Ascii.eqb Bool.eqb].
  unfold spec_surviving. cbn [flat_map spec_item_text dict_get String.eqb Ascii.eqb Bool.eqb].
  rewrite H1, H2. reflexivity.
Qed.

(* ===================================================================== *)
(** ** Evidence lines of hypothesis and methodology items *)
(* ===================================================================== *)

Module EvidenceFacts.
Import PyStrFacts PrintFacts.

Lemma digit_not_colon (c : ascii) : is_digit c = true -> not_colon c = true.
Proof.
  destruct c as [[] [] [] [] [] [] [] []]; vm_compute; congruence.
Qed.

Lemma take_digits_digits (s : string) :
  all_chars is_digit (fst (take_digits s)) = true.
Proof.
  induction s as [|c t IH]; simpl; [reflexivity|].
  destruct (is_digit c) eqn:Hc; [| reflexivity].
  destruct (take_digits t) as [ds rest]. simpl in *. now rewrite Hc, IH.
Qed.

Lemma page_here_digits (s ds : string) :
  page_here s = Some ds -> all_chars is_digit ds = true.
Proof.
  unfold page_here. destruct (starts_with "(p." s); [| discriminate].
  pose proof (take_digits_digits (drop 3 s)) as H.
  destruct (take_digits (drop 3 s)) as [d rest]. simpl in H.
  destruct (negb (d =? EmptyString) && starts_with ")" rest); [| discriminate].
  now intros [= <-].
Qed.

Lemma search_page_digits (s ds : string) :
  search_page s = Some ds -> all_chars is_digit ds = true.
Proof.
  induction s as [|c t IH]; cbn [search_page].
  - destruct (page_here EmptyString) eqn:E; [| discriminate].
    intros [= <-]. now apply page_here_digits in E.
  - destruct (page_here (String c t)) eqn:E.
    + intros [= <-]. now apply page_here_digits in E.
    + exact IH.
Qed.

Lemma extract_page_no_colon (e : string) :
  all_chars not_colon (extract_page e) = true.
Proof.
  unfold extract_page. destruct (search_page e) as [ds|] eqn:E; [| reflexivity].
  apply search_page_digits in E. revert E.
  apply all_chars_weaken, digit_not_colon.
Qed.

Lemma str_of_nat_no_colon (n : nat) : all_chars not_colon (str_of_nat n) = true.
Proof.
  destruct (str_of_nat_digits n) as [H _]. revert H.
  apply all_chars_weaken, digit_not_colon.
Qed.

(** Splitting at the first [": "] of a text whose part before that
    separator has no colon at all. *)
Lemma after_first_no_colon (pre e : string) :
  all_chars not_colon pre = true ->
  after_first_from ": " (pre ++ ": " ++ e) = Some e
  /\ contains ": " (pre ++ ": " ++ e) = true.
Proof.
  induction pre as [|c t IH]; intros H.
  - split; reflexivity.
  - simpl in H. apply andb_true_iff in H as [Hc Ht].
    destruct (IH Ht) as [IH1 IH2].
    unfold not_colon in Hc. apply negb_true_iff in Hc.
    change ((String c t) ++ ": " ++ e) with (String c (t ++ ": " ++ e)).
    split.
    + cbn [after_first_from starts_with].
      rewrite Ascii.eqb_sym, Hc. exact IH1.
    + cbn [contains]. rewrite IH2. apply orb_true_r.
Qed.

(** The prefix put in front of an evidence line is taken off again whole. *)
Lemma unprefix_prefixed (key : string) (idx : nat) (e : string) :
  unprefix (prefixed_line key idx e) = e.
Proof.
  set (k := if key =? "hypothesis" then str_of_nat idx else "M" ++ str_of_nat idx).
  assert (Hk : all_chars not_colon k = true).
  { subst k. destruct (key =? "hypothesis"); [apply str_of_nat_no_colon|].
    simpl. apply str_of_nat_no_colon. }
  assert (E : prefixed_line key idx e
              = ("H" ++ k ++ " (p." ++ extract_page e ++ ")") ++ ": " ++ e).
  { unfold prefixed_line. fold k. str_norm. reflexivity. }
  assert (Hpre : all_chars not_colon ("H" ++ k ++ " (p." ++ extract_page e ++ ")") = true).
  { rewrite !all_chars_app. rewrite Hk, extract_page_no_colon. reflexivity. }
  destruct (after_first_no_colon _ e Hpre) as [H1 H2].
  unfold unprefix, split1_last. rewrite E, H2, H1. reflexivity.
Qed.

Lemma map_unprefix_prefixed (key : string) (idx : nat) (l : list string) :
  map unprefix (map (prefixed_line key idx) l) = l.
Proof.
  induction l as [|e r IH]; simpl; [reflexivity|].
  now rewrite unprefix_prefixed, IH.
Qed.

Lemma list_evidence_loop_spec (key : string) (raw_items : list json) :
  forall idx,
    (lines <- list_evidence_loop key idx raw_items ;; Ok (map unprefix lines))
    = spec_capped_evidence raw_items.
Proof.
  induction raw_items as [|it r IH]; intros idx; [reflexivity|].
  destruct it; simpl; try apply IH.
  destruct (format_evidence_list (dict_get d "evidence" (JList []))) as [ev|e];
    [| reflexivity].
  simpl. rewrite <- (IH (S idx)).
  destruct (list_evidence_loop key (S idx) r) as [rest|e]; [| reflexivity].
  simpl. now rewrite map_app, map_unprefix_prefixed.
Qed.

Lemma evidence_line_canonical (page : json) (quote : string) :
  canonical_line (evidence_line page quote).
Proof.
  destruct page as [|b|z|f|s|l|d]; unfold evidence_line, canonical_line.
  1,4-7: exists "?", quote; reflexivity.
  - exists (PyRepr.str (JBool b)), quote. reflexivity.
  - exists (str_of_Z z), quote. reflexivity.
Qed.

Lemma format_evidence_items_canonical (l : list json) :
  forall lines, format_evidence_items l = Ok lines -> Forall canonical_line lines.
Proof.
  induction l as [|item r IH]; intros lines; simpl.
  - intros [= <-]. constructor.
  - destruct item; try apply IH.
    destruct (normalize_quote _) as [q|e]; simpl; [| discriminate].
    destruct (q =? EmptyString); [apply IH|].
    destruct (format_evidence_items r) as [rest|e]; simpl; [| discriminate].
    intros [= <-]. constructor; [apply evidence_line_canonical | now apply IH].
Qed.

Lemma format_evidence_list_canonical (ev : json) (lines : list string) :
  format_evidence_list ev = Ok lines -> Forall canonical_line lines.
Proof.
  destruct ev; simpl; try (intros [= <-]; constructor).
  apply format_evidence_items_canonical.
Qed.

Lemma Forall_firstn {A : Type} (P : A -> Prop) (n : nat) (l : list A) :
  Forall P l -> Forall P (firstn n l).
Proof.
  intros H. revert n. induction H; intros [|n]; simpl; constructor; auto.
Qed.

Lemma spec_capped_evidence_bound (raw_items : list json) :
  forall lines,
    spec_capped_evidence raw_items = Ok lines ->
    Forall canonical_line lines
    /\ List.length lines <= 2 * List.length (filter is_object raw_items).
Proof.
  induction raw_items as [|it r IH]; intros lines.
  - intros [= <-]. split; [apply Forall_nil | simpl; lia].
  - destruct it; cbn [spec_capped_evidence filter is_object]; try apply IH.
    destruct (format_evidence_list _) as [ev|e] eqn:E; cbn [bind];
      [| discriminate].
    destruct (spec_capped_evidence r) as [rest|e]; cbn [bind]; [| discriminate].
    intros [= <-]. destruct (IH rest eq_refl) as [Hc Hl]. split.
    + apply Forall_app. split; [| exact Hc].
      change (Forall canonical_line (firstn 2 ev)).
      apply Forall_firstn. now apply format_evidence_list_canonical in E.
    + rewrite length_app. pose proof (firstn_le_length 2 ev).
      change (List.length (firstn 2 ev) + List.length rest
              <= 2 * S (List.length (filter is_object r))).
      lia.
Qed.

Lemma concat_all_app (l1 l2 : list string) :
  concat_all (l1 ++ l2)%list = concat_all l1 ++ concat_all l2.
Proof.
  induction l1 as [|x r IH]; [reflexivity|].
  change ((x :: r) ++ l2)%list with (x :: (r ++ l2)%list).
  rewrite !ListTextFacts.concat_all_cons, IH. now rewrite app_assoc.
Qed.

Lemma experiment_block_spec (inc : bool) (name wv m mr : string)
    (evs : list string) :
  experiment_block inc name wv m mr evs
  = spec_experiment_block inc name wv m mr (firstn 2 evs).
Proof.
  unfold experiment_block, spec_experiment_block.
  rewrite concat_all_app, !ListTextFacts.concat_all_cons.
  change (concat_all []) with EmptyString.
  destruct evs as [|e1 evs].
  - rewrite andb_false_r. change (concat_all []) with EmptyString.
    cbn [firstn]. str_norm. reflexivity.
  - destruct inc.
    + cbn [andb List.length Nat.eqb negb].
      rewrite ListTextFacts.concat_all_cons.
      change (firstn 2 (e1 :: evs)) with (e1 :: firstn 1 evs).
      str_norm. reflexivity.
    + cbn [andb]. change (concat_all []) with EmptyString.
      change (firstn 2 (e1 :: evs)) with (e1 :: firstn 1 evs).
      str_norm. reflexivity.
Qed.

Lemma experiment_blocks_capped (inc : bool) (raw_items : list json) :
  experiment_blocks inc raw_items = spec_capped_blocks inc raw_items.
Proof.
  induction raw_items as [|it r IH]; [reflexivity|].
  destruct it; cbn [experiment_blocks spec_capped_blocks]; try exact IH.
  destruct (normalize_unknown (dict_get d "name" JNull) =? "Unknown");
    [exact IH|].
  rewrite IH. unfold bind.
  destruct (format_evidence_list _) as [ev|e]; [|reflexivity].
  destruct (spec_capped_blocks inc r) as [rest|e]; [|reflexivity].
  now rewrite experiment_block_spec.
Qed.

Lemma extract_experiments_text_capped (p : list (string * json)) (inc : bool) :
  extract_experiments_text (JObject p) inc
  = (blocks <- spec_capped_blocks inc (section_items p "experiments") ;;
     Ok (match blocks with
         | [] => "Unknown"
         | _ => strip (join nl blocks)
         end)).
Proof.
  unfold extract_experiments_text, section_items, py_get.
  cbn [bind].
  destruct (dict_get p "experiments" (JObject [])) as [| | | | |l|s];
    try reflexivity.
  destruct (dict_get s "items" (JList [])) as [| | | | |raw|];
    try reflexivity.
  destruct raw as [|it r]; [reflexivity|].
  rewrite experiment_blocks_capped. unfold bind.
  destruct (spec_capped_blocks inc (it :: r)) as [[|b bs]|e]; reflexivity.
Qed.

Lemma extract_list_evidence_lines_eq (p : list (string * json)) (key : string) :
  extract_list_evidence_lines (JObject p) key
  = spec_capped_evidence (section_items p key).
Proof.
  unfold extract_list_evidence_lines, section_items, py_get, bind.
  destruct (dict_get p key (JObject [])) as [| | | | |l|s]; try reflexivity.
  destruct (dict_get s "items" (JList [])) as [| | | | |raw|]; try reflexivity.
  rewrite <- (list_evidence_loop_spec key raw 1).
  destruct (list_evidence_loop key 1 raw) as [[|ln lines]|e]; reflexivity.
Qed.

End EvidenceFacts.

(** C4.  For a Plan mapping, [extract_list_evidence_lines] collects, item
    by item, the first two lines that the evidence formatter gives for the
    item and nothing else (it raises exactly when the formatter does): the
    item-number prefix that the loop puts in front of a line is taken off
    again whole, every returned line has the form [(p.X) "quote"], and the
    lines are at most two per mapping item.  An experiment block depends on
    the first two evidence lines only and shows exactly those, so at most
    two; and [extract_experiments_text] gives, for a Plan mapping, the
    blocks of the named experiments, each showing the first two lines that
    the formatter gives for that experiment's evidence and no others (it
    raises exactly when the formatter raises on a named experiment): of
    three evidence entries of an experiment the third is not shown. *)
Theorem evidence_lines_capped_canonical (p : list (string * json)) (key : string) :
  extract_list_evidence_lines (JObject p) key
  = spec_capped_evidence (section_items p key)
  /\ (forall lines,
        extract_list_evidence_lines (JObject p) key = Ok lines ->
        Forall canonical_line lines
        /\ List.length lines
           <= 2 * List.length (filter is_object (section_items p key)))
  /\ (forall idx e, unprefix (prefixed_line key idx e) = e)
  /\ (forall inc name what_varied metric main_result ev_lines,
        experiment_block inc name what_varied metric main_result ev_lines
        = spec_experiment_block inc name what_varied metric main_result
            (firstn 2 ev_lines)
        /\ List.length (firstn 2 ev_lines) <= 2)
  /\ (forall inc,
        extract_experiments_text (JObject p) inc
        = (blocks <- spec_capped_blocks inc (section_items p "experiments") ;;
           Ok (match blocks with
               | [] => "Unknown"
               | _ => strip (join nl blocks)
               end)))
  /\ extract_experiments_text
       (JObject
          [("experiments",
            JObject
              [("items",
                JList
                  [JObject
                     [("name", JString "Digit-length sweep");
                      ("evidence",
                       JList [JObject [("page", JInt 3); ("quote", JString "a")];
                              JObject [("page", JInt 4); ("quote", JString "b")];
                              JObject [("page", JInt 5); ("quote", JString "c")]])]])])])
       true
     = Ok ("### Digit-length sweep" ++ nl
           ++ "- What varied: Unknown" ++ nl
           ++ "- Metric: Unknown" ++ nl
           ++ "- Main result: Unknown" ++ nl
           ++ "- Evidence:" ++ nl
           ++ "  - (p.3) " ++ String dquote ("a" ++ String dquote EmptyString) ++ nl
           ++ "  - (p.4) " ++ String dquote ("b" ++ String dquote EmptyString)).
Proof.
  pose proof (EvidenceFacts.extract_list_evidence_lines_eq p key) as E.
  split; [exact E|]. split; [| split; [| split; [| split; [| reflexivity]]]].
  - intros lines H. rewrite E in H.
    now apply EvidenceFacts.spec_capped_evidence_bound.
  - intros idx e. apply EvidenceFacts.unprefix_prefixed.
  - intros. split; [apply EvidenceFacts.experiment_block_spec|].
    apply firstn_le_length.
  - intros inc. apply EvidenceFacts.extract_experiments_text_capped.
Qed.

(* ===================================================================== *)
(** ** When the extractors return *)
(* ===================================================================== *)

Module TotalityFacts.

Lemma normalize_quote_ok (q : json) :
  quote_ok q = true -> exists s, normalize_quote q = Ok s.
Proof.
  unfold normalize_quote.
  destruct q as [|b|z|f|s|l|d]; cbn [quote_ok]; intros H;
    try (apply negb_true_iff in H; rewrite H; eexists; reflexivity).
  destruct (truthy (JString s)); eexists; reflexivity.
Qed.

Lemma format_evidence_items_ok (l : list json) :
  forallb entry_ok l = true -> exists lines, format_evidence_items l = Ok lines.
Proof.
  induction l as [|item r IH]; intros H; [eexists; reflexivity|].
  cbn [forallb] in H. apply andb_true_iff in H as [Hi Hr].
  destruct (IH Hr) as [rest Hrest].
  destruct item; cbn [format_evidence_items]; try (exists rest; exact Hrest).
  cbn [entry_ok] in Hi. destruct (normalize_quote_ok _ Hi) as [q Hq].
  rewrite Hq. cbn [bind].
  destruct (q =? EmptyString); [exists rest; exact Hrest|].
  rewrite Hrest. eexists; reflexivity.
Qed.

Lemma format_evidence_list_ok (ev : json) :
  evidence_ok ev = true -> exists lines, format_evidence_list ev = Ok lines.
Proof.
  destruct ev; cbn [evidence_ok format_evidence_list];
    try (intros _; eexists; reflexivity).
  apply format_evidence_items_ok.
Qed.

Lemma spec_capped_evidence_ok (raw_items : list json) :
  forallb item_ok raw_items = true ->
  exists lines, spec_capped_evidence raw_items = Ok lines.
Proof.
  induction raw_items as [|it r IH]; intros H; [eexists; reflexivity|].
  cbn [forallb] in H. apply andb_true_iff in H as [Hi Hr].
  destruct (IH Hr) as [rest Hrest].
  destruct it; cbn [spec_capped_evidence]; try (exists rest; exact Hrest).
  cbn [item_ok] in Hi. destruct (format_evidence_list_ok _ Hi) as [ev Hev].
  rewrite Hev, Hrest. eexists; reflexivity.
Qed.

Lemma experiment_blocks_ok (inc : bool) (raw_items : list json) :
  forallb item_ok raw_items = true ->
  exists exps, experiment_blocks inc raw_items = Ok exps.
Proof.
  induction raw_items as [|it r IH]; intros H; [eexists; reflexivity|].
  cbn [forallb] in H. apply andb_true_iff in H as [Hi Hr].
  destruct (IH Hr) as [rest Hrest].
  destruct it; cbn [experiment_blocks]; try (exists rest; exact Hrest).
  destruct (normalize_unknown (dict_get d "name" JNull) =? "Unknown");
    [exists rest; exact Hrest|].
  cbn [item_ok] in Hi. destruct (format_evidence_list_ok _ Hi) as [ev Hev].
  rewrite Hev, Hrest. eexists; reflexivity.
Qed.

Lemma extract_experiments_text_ok (p : list (string * json)) (inc : bool) :
  forallb item_ok (section_items p "experiments") = true ->
  exists text, extract_experiments_text (JObject p) inc = Ok text.
Proof.
  unfold extract_experiments_text, section_items, py_get, bind.
  destruct (dict_get p "experiments" (JObject [])) as [| | | | |l|s];
    try (intros _; eexists; reflexivity).
  destruct (dict_get s "items" (JList [])) as [| | | | |raw|];
    try (intros _; eexists; reflexivity).
  intros H. destruct raw as [|it r]; [eexists; reflexivity|].
  destruct (experiment_blocks_ok inc _ H) as [exps ->].
  destruct exps; eexists; reflexivity.
Qed.

Lemma extract_objective_with_evidence_ok (p : list (string * json)) :
  item_ok (dict_get p "objective" (JObject [])) = true ->
  exists r, extract_objective_with_evidence (JObject p) = Ok r.
Proof.
  unfold extract_objective_with_evidence, py_get, bind.
  destruct (dict_get p "objective" (JObject [])) as [| | | | |l|o];
    try (intros _; eexists; reflexivity).
  cbn [item_ok]. intros H.
  destruct (format_evidence_list_ok _ H) as [ev ->]. eexists; reflexivity.
Qed.

Lemma returns_ok {A : Type} (m : result A) :
  (exists a, m = Ok a) -> returns m = true.
Proof. now intros [a ->]. Qed.

Lemma plan_quotes_ok_parts (p : list (string * json)) :
  plan_quotes_ok p = true ->
  item_ok (dict_get p "objective" (JObject [])) = true
  /\ forallb item_ok (section_items p "hypothesis") = true
  /\ forallb item_ok (section_items p "methodology") = true
  /\ forallb item_ok (section_items p "experiments") = true.
Proof.
  unfold plan_quotes_ok. intros H.
  repeat (apply andb_true_iff in H as [H ?]). auto.
Qed.

End TotalityFacts.

(** C1 does not hold as stated: a Plan that is not a mapping makes every
    section extractor raise, since only a dict has [get]. *)
Lemma extractors_raise_on_list_plan :
  extract_objective_text (JList []) = Raise AttributeError
  /\ extract_objective_with_evidence (JList []) = Raise AttributeError
  /\ extract_list_text (JList []) "hypothesis" = Raise AttributeError
  /\ extract_list_evidence_lines (JList []) "hypothesis" = Raise AttributeError
  /\ extract_experiments_text (JList []) false = Raise AttributeError.
Proof. repeat split; reflexivity. Qed.

(** C1, amended.  For a Plan that is a mapping and whose evidence entries
    carry accepted quotes (a string, or an absent, null or otherwise false
    value), the five section extractors return; so does the evidence
    formatter on any value whose entries carry accepted quotes.  On a
    structural mismatch they default: an objective that is not a mapping
    gives "Unknown" and no evidence, a section with no item list gives
    "Unknown" (text, experiments) or no lines, and evidence that is not a
    list gives no lines. *)
Theorem extractors_return_on_mappings (p : list (string * json))
    (H : plan_quotes_ok p = true) :
  returns (extract_objective_text (JObject p)) = true
  /\ returns (extract_objective_with_evidence (JObject p)) = true
  /\ (forall key, returns (extract_list_text (JObject p) key) = true)
  /\ returns (extract_list_evidence_lines (JObject p) "hypothesis") = true
  /\ returns (extract_list_evidence_lines (JObject p) "methodology") = true
  /\ (forall inc, returns (extract_experiments_text (JObject p) inc) = true)
  /\ (forall ev, evidence_ok ev = true -> returns (format_evidence_list ev) = true)
  /\ (is_object (dict_get p "objective" (JObject [])) = false ->
      extract_objective_text (JObject p) = Ok "Unknown"
      /\ extract_objective_with_evidence (JObject p) = Ok ("Unknown", []))
  /\ (forall key, section_items p key = [] ->
      extract_list_text (JObject p) key = Ok "Unknown"
      /\ extract_list_evidence_lines (JObject p) key = Ok [])
  /\ (section_items p "experiments" = [] ->
      forall inc, extract_experiments_text (JObject p) inc = Ok "Unknown")
  /\ (forall ev, is_list ev = false -> format_evidence_list ev = Ok []).
Proof.
  destruct (TotalityFacts.plan_quotes_ok_parts p H) as (Ho & Hh & Hm & He).
  split.
  { unfold extract_objective_text, py_get, bind.
    destruct (dict_get p "objective" (JObject [])); reflexivity. }
  split.
  { apply TotalityFacts.returns_ok.
    now apply TotalityFacts.extract_objective_with_evidence_ok. }
  split.
  { intros key. rewrite ListTextFacts.extract_list_text_eq. reflexivity. }
  split.
  { rewrite EvidenceFacts.extract_list_evidence_lines_eq.
    apply TotalityFacts.returns_ok.
    now apply TotalityFacts.spec_capped_evidence_ok. }
  split.
  { rewrite EvidenceFacts.extract_list_evidence_lines_eq.
    apply TotalityFacts.returns_ok.
    now apply TotalityFacts.spec_capped_evidence_ok. }
  split.
  { intros inc. apply TotalityFacts.returns_ok.
    now apply TotalityFacts.extract_experiments_text_ok. }
  split.
  { intros ev Hev. apply TotalityFacts.returns_ok.
    now apply TotalityFacts.format_evidence_list_ok. }
  split.
  { unfold extract_objective_text, extract_objective_with_evidence, py_get, bind.
    destruct (dict_get p "objective" (JObject [])); cbn [is_object];
      intros Hobj; try discriminate; split; reflexivity. }
  split.
  { intros key Hk.
    rewrite ListTextFacts.extract_list_text_eq.
    rewrite EvidenceFacts.extract_list_evidence_lines_eq.
    rewrite Hk. split; reflexivity. }
  split.
  { unfold extract_experiments_text, section_items, py_get, bind.
    destruct (dict_get p "experiments" (JObject [])) as [| | | | |l|s];
      try reflexivity.
    destruct (dict_get s "items" (JList [])) as [| | | | |raw|];
      try reflexivity.
    intros ->. reflexivity. }
  intros ev. destruct ev; cbn [is_list]; intros Hl; try discriminate; reflexivity.
Qed.

Lemma extractors_return_on_mappings_witness :
  plan_quotes_ok sample_plan = true
  /\ returns (extract_objective_with_evidence (JObject sample_plan)) = true.
Proof.
  split; [reflexivity|].
  exact (proj1 (proj2 (extractors_return_on_mappings sample_plan eq_refl))).
Defined.

(* ===================================================================== *)
(** ** The concise document *)
(* ===================================================================== *)

Module ConciseFacts.
Import PyStrFacts.

Lemma starts_with_app_nl (needle : string) : forall a b,
  all_chars not_nl needle = true ->
  starts_with needle (a ++ nl ++ b) = starts_with needle a.
Proof.
  induction needle as [|x n IH]; intros a b H; [reflexivity|].
  cbn [all_chars] in H. apply andb_true_iff in H as [Hx Hn].
  destruct a as [|y a'].
  - cbn. unfold not_nl in Hx. apply negb_true_iff in Hx. now rewrite Hx.
  - change (String y a' ++ nl ++ b) with (String y (a' ++ nl ++ b)).
    cbn [starts_with]. now rewrite IH.
Qed.

Lemma contains_app_nl (needle a b : string) :
  all_chars not_nl needle = true -> needle <> EmptyString ->
  contains needle (a ++ nl ++ b) = contains needle a || contains needle b.
Proof.
  intros Hn Hne. induction a as [|y a' IH].
  - destruct needle as [|x n]; [congruence|].
    cbn [all_chars] in Hn. apply andb_true_iff in Hn as [Hx _].
    unfold not_nl in Hx. apply negb_true_iff in Hx.
    cbn. now rewrite Hx.
  - change (String y a' ++ nl ++ b) with (String y (a' ++ nl ++ b)).
    cbn [contains]. rewrite IH.
    change (String y (a' ++ nl ++ b)) with (String y a' ++ nl ++ b).
    rewrite starts_with_app_nl by exact Hn.
    now rewrite orb_assoc.
Qed.

Lemma contains_nl_head (needle b : string) :
  all_chars not_nl needle = true -> needle <> EmptyString ->
  contains needle (nl ++ b) = contains needle b.
Proof.
  intros Hn Hne.
  change (nl ++ b) with (EmptyString ++ nl ++ b).
  rewrite contains_app_nl by assumption.
  destruct needle; [congruence | reflexivity].
Qed.

Lemma contains_nl_tail (needle a : string) :
  all_chars not_nl needle = true -> needle <> EmptyString ->
  contains needle (a ++ nl) = contains needle a.
Proof.
  intros Hn Hne.
  rewrite <- (app_empty_r nl), contains_app_nl by assumption.
  destruct needle; [congruence|]. cbn. apply orb_false_r.
Qed.

(** A word without a line feed that is in none of the headings occurs in
    the layout exactly when it occurs in one of the four texts. *)
Lemma contains_concise_layout (needle obj hyp meth exps : string) :
  all_chars not_nl needle = true -> needle <> EmptyString ->
  contains needle "# Plan" = false ->
  contains needle "## Objective" = false ->
  contains needle "## Hypothesis" = false ->
  contains needle "## Methodology" = false ->
  contains needle "## Experiments" = false ->
  contains needle (concise_layout obj hyp meth exps)
  = contains needle obj || contains needle hyp
    || contains needle meth || contains needle exps.
Proof.
  intros Hn Hne H1 H2 H3 H4 H5. unfold concise_layout.
  repeat first [ rewrite contains_app_nl by assumption
               | rewrite contains_nl_head by assumption
               | rewrite contains_nl_tail by assumption ].
  rewrite H1, H2, H3, H4, H5. cbn [orb].
  now rewrite !orb_assoc.
Qed.

Lemma render_plan_md_concise_layout (plan : json) :
  render_plan_md_concise plan
  = (obj <- extract_objective_text plan ;;
     hyp <- extract_list_text plan "hypothesis" ;;
     meth <- extract_list_text plan "methodology" ;;
     exps <- extract_experiments_text plan false ;;
     Ok (concise_layout obj hyp meth exps)).
Proof.
  unfold render_plan_md_concise, concise_layout.
  destruct (extract_objective_text plan) as [obj|]; [| reflexivity].
  destruct (extract_list_text plan "hypothesis") as [hyp|]; [| reflexivity].
  destruct (extract_list_text plan "methodology") as [meth|]; [| reflexivity].
  destruct (extract_experiments_text plan false) as [exps|]; [| reflexivity].
  cbn [bind]. f_equal.
  rewrite !ListTextFacts.concat_all_cons.
  change (concat_all []) with EmptyString. rewrite app_empty_r.
  str_norm. reflexivity.
Qed.

End ConciseFacts.

(** C6 does not hold as stated: the concise document repeats the Plan's
    own texts, so a text with the words in it puts them in the document. *)
Lemma concise_document_repeats_plan_words :
  exists doc,
    render_plan_md_concise
      (JObject [("objective",
                 JObject [("text", JString "Weigh the Evidence and list the Unknowns")])])
    = Ok doc
    /\ contains "Evidence" doc = true
    /\ contains "Unknowns" doc = true.
Proof. eexists. repeat split; reflexivity. Qed.

(** C6, amended.  For a Plan mapping whose experiments carry accepted
    quotes, the concise document is the four headed sections Objective,
    Hypothesis, Methodology and Experiments around the four extractor texts
    and nothing else; the experiments text is built without evidence
    sub-blocks; and "Evidence" or "Unknowns" occurs in the document exactly
    when it occurs in one of the four extractor texts. *)
Theorem concise_document_layout (p : list (string * json))
    (H : forallb item_ok (section_items p "experiments") = true) :
  exists obj hyp meth exps,
    extract_objective_text (JObject p) = Ok obj
    /\ extract_list_text (JObject p) "hypothesis" = Ok hyp
    /\ extract_list_text (JObject p) "methodology" = Ok meth
    /\ extract_experiments_text (JObject p) false = Ok exps
    /\ render_plan_md_concise (JObject p) = Ok (concise_layout obj hyp meth exps)
    /\ (forall name what_varied metric main_result ev_lines,
          experiment_block false name what_varied metric main_result ev_lines
          = "### " ++ name ++ nl
            ++ "- What varied: " ++ what_varied ++ nl
            ++ "- Metric: " ++ metric ++ nl
            ++ "- Main result: " ++ main_result ++ nl)
    /\ (forall needle, needle = "Evidence" \/ needle = "Unknowns" ->
          contains needle (concise_layout obj hyp meth exps)
          = contains needle obj || contains needle hyp
            || contains needle meth || contains needle exps).
Proof.
  destruct (TotalityFacts.extract_experiments_text_ok p false H) as [exps He].
  pose proof (ListTextFacts.extract_list_text_eq p "hypothesis") as Hh.
  pose proof (ListTextFacts.extract_list_text_eq p "methodology") as Hm.
  assert (Ho : exists obj, extract_objective_text (JObject p) = Ok obj).
  { unfold extract_objective_text, py_get, bind.
    destruct (dict_get p "objective" (JObject [])); eexists; reflexivity. }
  destruct Ho as [obj Ho].
  eexists obj, _, _, exps.
  split; [exact Ho|]. split; [exact Hh|]. split; [exact Hm|].
  split; [exact He|]. split.
  { rewrite ConciseFacts.render_plan_md_concise_layout, Ho, Hh, Hm, He.
    reflexivity. }
  split.
  { intros. rewrite EvidenceFacts.experiment_block_spec.
    unfold spec_experiment_block.
    destruct (firstn 2 ev_lines); PyStrFacts.str_norm;
      rewrite ?PyStrFacts.app_empty_r; reflexivity. }
  intros needle [-> | ->];
    apply ConciseFacts.contains_concise_layout; try reflexivity; discriminate.
Qed.

Lemma concise_document_layout_witness :
  forallb item_ok (section_items sample_plan "experiments") = true
  /\ exists obj hyp meth exps,
       extract_objective_text (JObject sample_plan) = Ok obj
       /\ extract_list_text (JObject sample_plan) "hypothesis" = Ok hyp
       /\ extract_list_text (JObject sample_plan) "methodology" = Ok meth
       /\ extract_experiments_text (JObject sample_plan) false = Ok exps
       /\ render_plan_md_concise (JObject sample_plan)
          = Ok (concise_layout obj hyp meth exps).
Proof.
  split; [reflexivity|].
  destruct (concise_document_layout sample_plan eq_refl)
    as (obj & hyp & meth & exps & H1 & H2 & H3 & H4 & H5 & _).
  exists obj, hyp, meth, exps. repeat split; assumption.
Defined.



(* ===================================================================== *)
(** ** The evidence document *)
(* ===================================================================== *)

Module EvidenceDocFacts.
Import PyStrFacts.

Lemma format_evidence_items_all (l : list json) :
  forall lines, format_evidence_items l = Ok lines ->
                lines = flat_map spec_entry_line l.
Proof.
  induction l as [|item r IH]; intros lines; cbn [format_evidence_items flat_map].
  - now intros [= <-].
  - destruct item; cbn [spec_entry_line app]; try apply IH.
    destruct (normalize_quote _) as [q|e]; cbn [bind]; [| discriminate].
    destruct (q =? EmptyString); [apply IH|].
    destruct (format_evidence_items r) as [rest|e]; cbn [bind]; [| discriminate].
    intros [= <-]. cbn [app]. f_equal. now apply IH.
Qed.

Lemma format_evidence_list_all (ev : json) (lines : list string) :
  format_evidence_list ev = Ok lines -> lines = spec_all_lines ev.
Proof.
  destruct ev; cbn [format_evidence_list spec_all_lines];
    try (now intros [= <-]).
  apply format_evidence_items_all.
Qed.

Lemma render_plan_md_with_evidence_layout (plan : json) :
  render_plan_md_with_evidence plan
  = (oe <- extract_objective_with_evidence plan ;;
     hyp_text <- extract_list_text plan "hypothesis" ;;
     hyp_ev <- extract_list_evidence_lines plan "hypothesis" ;;
     meth_text <- extract_list_text plan "methodology" ;;
     meth_ev <- extract_list_evidence_lines plan "methodology" ;;
     exps_text <- extract_experiments_text plan true ;;
     u <- py_get plan "unknowns" (JList []) ;;
     Ok (evidence_layout (fst oe) (snd oe) hyp_text hyp_ev meth_text meth_ev
           exps_text (match u with JList l => l | _ => [] end))).
Proof.
  unfold render_plan_md_with_evidence, evidence_layout.
  destruct (extract_objective_with_evidence plan) as [[obj_text obj_ev]|];
    [| reflexivity].
  destruct (extract_list_text plan "hypothesis") as [hyp|]; [| reflexivity].
  destruct (extract_list_evidence_lines plan "hypothesis") as [hyp_ev|];
    [| reflexivity].
  destruct (extract_list_text plan "methodology") as [meth|]; [| reflexivity].
  destruct (extract_list_evidence_lines plan "methodology") as [meth_ev|];
    [| reflexivity].
  destruct (extract_experiments_text plan true) as [exps|]; [| reflexivity].
  destruct (py_get plan "unknowns" (JList [])) as [u|]; [| reflexivity].
  cbn [bind fst snd List.concat]. f_equal.
  rewrite !app_nil_r.
  repeat first [ rewrite EvidenceFacts.concat_all_app
               | rewrite ListTextFacts.concat_all_cons ].
  change (concat_all []) with EmptyString. rewrite !app_empty_r.
  str_norm. reflexivity.
Qed.

(** With accepted quotes throughout, every extractor returns and the
    document is the layout around their results. *)
Lemma render_plan_md_with_evidence_ok (p : list (string * json)) :
  plan_quotes_ok p = true ->
  exists obj_text obj_ev hyp_text hyp_ev meth_text meth_ev exps_text,
    extract_objective_with_evidence (JObject p) = Ok (obj_text, obj_ev)
    /\ render_plan_md_with_evidence (JObject p)
       = Ok (evidence_layout obj_text obj_ev hyp_text hyp_ev meth_text meth_ev
               exps_text
               (match dict_get p "unknowns" (JList []) with
                | JList l => l
                | _ => []
                end)).
Proof.
  intros H.
  destruct (TotalityFacts.plan_quotes_ok_parts p H) as (Ho & Hh & Hm & He).
  destruct (TotalityFacts.extract_objective_with_evidence_ok p Ho)
    as [[obj_text obj_ev] Eo].
  destruct (TotalityFacts.spec_capped_evidence_ok _ Hh) as [hyp_ev Ehe].
  destruct (TotalityFacts.spec_capped_evidence_ok _ Hm) as [meth_ev Eme].
  destruct (TotalityFacts.extract_experiments_text_ok p true He) as [exps Ee].
  pose proof (ListTextFacts.extract_list_text_eq p "hypothesis") as Eh.
  pose proof (ListTextFacts.extract_list_text_eq p "methodology") as Em.
  pose proof (EvidenceFacts.extract_list_evidence_lines_eq p "hypothesis") as Eh2.
  pose proof (EvidenceFacts.extract_list_evidence_lines_eq p "methodology") as Em2.
  rewrite Ehe in Eh2. rewrite Eme in Em2.
  eexists obj_text, obj_ev, _, hyp_ev, _, meth_ev, exps.
  split; [exact Eo|].
  rewrite render_plan_md_with_evidence_layout, Eo, Eh, Eh2, Em, Em2, Ee.
  reflexivity.
Qed.

End EvidenceDocFacts.

Module ExperimentFacts.

Lemma experiment_blocks_spec (inc : bool) (raw_items : list json) :
  forallb item_ok raw_items = true ->
  experiment_blocks inc raw_items = Ok (spec_experiment_blocks inc raw_items).
Proof.
  induction raw_items as [|it r IH]; intros H; [reflexivity|].
  cbn [forallb] in H. apply andb_true_iff in H as [Hi Hr].
  specialize (IH Hr). unfold spec_experiment_blocks in *.
  destruct it; cbn [experiment_blocks flat_map app]; try exact IH.
  destruct (normalize_unknown (dict_get d "name" JNull) =? "Unknown");
    [exact IH|].
  cbn [item_ok] in Hi.
  destruct (TotalityFacts.format_evidence_list_ok _ Hi) as [ev Hev].
  unfold lines_of. rewrite Hev, IH. cbn [bind app].
  now rewrite EvidenceFacts.experiment_block_spec.
Qed.

Lemma extract_experiments_text_eq (p : list (string * json)) (inc : bool) :
  forallb item_ok (section_items p "experiments") = true ->
  extract_experiments_text (JObject p) inc
  = Ok (match spec_experiment_blocks inc (section_items p "experiments") with
        | [] => "Unknown"
        | bs => strip (join nl bs)
        end).
Proof.
  unfold extract_experiments_text, section_items, py_get, bind.
  destruct (dict_get p "experiments" (JObject [])) as [| | | | |l|s];
    try reflexivity.
  destruct (dict_get s "items" (JList [])) as [| | | | |raw|];
    try reflexivity.
  intros H. destruct raw as [|it r]; [reflexivity|].
  rewrite (experiment_blocks_spec inc _ H).
  destruct (spec_experiment_blocks inc (it :: r)); reflexivity.
Qed.

End ExperimentFacts.

(** C5.  Where an experiment that has a name carries an evidence entry
    whose quote is a true value that is not a string, the experiments
    extractor raises instead of rendering the block, also when evidence is
    not asked for.  With accepted quotes it does as the claim says: the
    items that are mappings with a name not normalizing to "Unknown" give
    one block each, the others none, and the result is "Unknown" when no
    block is left; an absent main_result reads "Unknown". *)
Theorem experiments_text_blocks :
  extract_experiments_text
    (JObject
       [("experiments",
         JObject
           [("items",
             JList [JObject [("name", JString "Digit-length sweep");
                             ("evidence",
                              JList [JObject [("page", JInt 3);
                                              ("quote", JInt 5)]])]])])])
    false
  = Raise AttributeError
  /\ (forall p inc,
        forallb item_ok (section_items p "experiments") = true ->
        extract_experiments_text (JObject p) inc
        = Ok (match spec_experiment_blocks inc (section_items p "experiments") with
              | [] => "Unknown"
              | bs => strip (join nl bs)
              end))
  /\ extract_experiments_text
       (JObject
          [("experiments",
            JObject
              [("items",
                JList [JObject [("name", JString "n/a");
                                ("metric", JString "loss")];
                       JObject [("name", JString "Digit-length sweep");
                                ("metric", JString "exact-match accuracy")]])])])
       false
     = Ok ("### Digit-length sweep" ++ nl
           ++ "- What varied: Unknown" ++ nl
           ++ "- Metric: exact-match accuracy" ++ nl
           ++ "- Main result: Unknown")
  /\ extract_experiments_text
       (JObject
          [("experiments",
            JObject [("items", JList [JObject [("metric", JString "loss")]])])])
       true
     = Ok "Unknown".
Proof.
  split; [reflexivity|]. split; [| split; reflexivity].
  intros p inc H. now apply ExperimentFacts.extract_experiments_text_eq.
Qed.

Module UnknownsFacts.
Import PyStrFacts.

Lemma unknowns_lines_spec (u : json) :
  concat_all (unknowns_lines (match u with JList l => l | _ => [] end))
  = spec_unknowns_section u.
Proof. destruct u as [| | | | |[|x l]|]; reflexivity. Qed.

Lemma evidence_layout_tail (obj_text : string) (obj_ev : list string)
    (hyp_text : string) (hyp_ev : list string)
    (meth_text : string) (meth_ev : list string)
    (exps_text : string) (unknowns : list json) :
  exists body,
    evidence_layout obj_text obj_ev hyp_text hyp_ev meth_text meth_ev
      exps_text unknowns
    = body ++ nl ++ "## Unknowns" ++ nl ++ concat_all (unknowns_lines unknowns).
Proof.
  eexists ("# Plan (with evidence)" ++ nl
           ++ "## Objective" ++ nl ++ obj_text ++ nl
           ++ concat_all (evidence_sublist obj_ev) ++ nl
           ++ "## Hypothesis" ++ nl ++ hyp_text ++ nl
           ++ concat_all (evidence_sublist hyp_ev) ++ nl
           ++ "## Methodology" ++ nl ++ meth_text ++ nl
           ++ concat_all (evidence_sublist meth_ev) ++ nl
           ++ "## Experiments" ++ nl ++ exps_text ++ nl).
  unfold evidence_layout. str_norm. reflexivity.
Qed.

End UnknownsFacts.

(** C7.  Where any item carries an evidence entry whose quote is a true
    value that is not a string, the evidence renderer raises and emits no
    document, so no Unknowns section.  With accepted quotes it does as the
    claim says: the document ends with the "## Unknowns" heading followed
    by one line per entry of a non-empty list, each entry normalized on its
    own and kept also when it normalizes to "Unknown", or by the single line
    "- (none)" when [unknowns] is an empty list or not a list. *)
Theorem evidence_document_unknowns_section :
  render_plan_md_with_evidence
    (JObject
       [("objective",
         JObject [("text", JString "Explain grokking");
                  ("evidence", JList [JObject [("page", JInt 2);
                                               ("quote", JInt 5)]])]);
        ("unknowns", JList [JString "random seed"])])
  = Raise AttributeError
  /\ (forall p,
        plan_quotes_ok p = true ->
        exists body,
          render_plan_md_with_evidence (JObject p)
          = Ok (body ++ nl ++ "## Unknowns" ++ nl
                ++ spec_unknowns_section (dict_get p "unknowns" (JList []))))
  /\ spec_unknowns_section (JList [JString "n/a"; JString "random seed"])
     = "- Unknown" ++ nl ++ "- random seed" ++ nl
  /\ spec_unknowns_section (JList []) = "- (none)" ++ nl
  /\ spec_unknowns_section (JString "random seed") = "- (none)" ++ nl.
Proof.
  split; [reflexivity|]. split; [| repeat split; reflexivity].
  intros p H.
  destruct (EvidenceDocFacts.render_plan_md_with_evidence_ok p H)
    as (ot & oe & ht & he & mt & me & et & _ & ->).
  destruct (UnknownsFacts.evidence_layout_tail ot oe ht he mt me et
              (match dict_get p "unknowns" (JList []) with
               | JList l => l
               | _ => []
               end)) as [body ->].
  exists body. now rewrite UnknownsFacts.unknowns_lines_spec.
Qed.

Module ObjectiveFacts.
Import PyStrFacts.

Lemma extract_objective_with_evidence_all (p : list (string * json))
    (text : string) (ev : list string) :
  extract_objective_with_evidence (JObject p) = Ok (text, ev) ->
  ev = spec_all_lines (objective_evidence p).
Proof.
  unfold extract_objective_with_evidence, objective_evidence, py_get, bind.
  destruct (dict_get p "objective" (JObject [])) as [| | | | |l|o];
    try (now intros [= _ <-]).
  destruct (format_evidence_list (dict_get o "evidence" (JList [])))
    as [lines|e] eqn:E; [| discriminate].
  intros [= _ <-]. now apply EvidenceDocFacts.format_evidence_list_all.
Qed.

Lemma evidence_layout_head (obj_text : string) (obj_ev : list string)
    (hyp_text : string) (hyp_ev : list string)
    (meth_text : string) (meth_ev : list string)
    (exps_text : string) (unknowns : list json) :
  exists rest,
    evidence_layout obj_text obj_ev hyp_text hyp_ev meth_text meth_ev
      exps_text unknowns
    = "# Plan (with evidence)" ++ nl ++ "## Objective" ++ nl ++ obj_text ++ nl
      ++ concat_all (evidence_sublist obj_ev) ++ rest.
Proof.
  exists (nl
          ++ "## Hypothesis" ++ nl ++ hyp_text ++ nl
          ++ concat_all (evidence_sublist hyp_ev) ++ nl
          ++ "## Methodology" ++ nl ++ meth_text ++ nl
          ++ concat_all (evidence_sublist meth_ev) ++ nl
          ++ "## Experiments" ++ nl ++ exps_text ++ nl
          ++ nl ++ "## Unknowns" ++ nl
          ++ concat_all (unknowns_lines unknowns)).
  reflexivity.
Qed.

End ObjectiveFacts.

(** C10.  Where the objective carries an evidence entry whose quote is a
    true value that is not a string, the objective extractor and the
    evidence renderer raise, and the entries with a proper quote produce no
    line.  With accepted quotes it is as the claim says: the objective's
    lines are one for every entry that is a mapping with a non-empty
    normalized quote, with no cap, and the evidence document lists every
    one of them under the objective. *)
Theorem objective_evidence_uncapped :
  (let plan :=
     JObject
       [("objective",
         JObject [("text", JString "Explain grokking");
                  ("evidence",
                   JList [JObject [("page", JInt 1); ("quote", JString "a")];
                          JObject [("page", JInt 2); ("quote", JInt 5)]])])] in
   extract_objective_with_evidence plan = Raise AttributeError
   /\ render_plan_md_with_evidence plan = Raise AttributeError)
  /\ (forall p,
        plan_quotes_ok p = true ->
        exists text rest,
          extract_objective_with_evidence (JObject p)
          = Ok (text, spec_all_lines (objective_evidence p))
          /\ render_plan_md_with_evidence (JObject p)
             = Ok ("# Plan (with evidence)" ++ nl
                   ++ "## Objective" ++ nl ++ text ++ nl
                   ++ concat_all
                        (evidence_sublist (spec_all_lines (objective_evidence p)))
                   ++ rest))
  /\ (forall ln lines,
        evidence_sublist (ln :: lines)
        = (nl ++ "**Evidence**:" ++ nl)
            :: map (fun e => "- " ++ e ++ nl) (ln :: lines))
  /\ spec_all_lines
       (JList [JObject [("page", JInt 1); ("quote", JString "a")];
               JObject [("page", JInt 2); ("quote", JString "b")];
               JObject [("quote", JString "c")]])
     = [ "(p.1) " ++ String dquote ("a" ++ String dquote EmptyString);
         "(p.2) " ++ String dquote ("b" ++ String dquote EmptyString);
         "(p.?) " ++ String dquote ("c" ++ String dquote EmptyString) ].
Proof.
  split; [split; reflexivity|]. split; [| split; [reflexivity | reflexivity]].
  intros p H.
  destruct (EvidenceDocFacts.render_plan_md_with_evidence_ok p H)
    as (ot & oe & ht & he & mt & me & et & Eo & ->).
  pose proof (ObjectiveFacts.extract_objective_with_evidence_all p _ _ Eo) as ->.
  destruct (ObjectiveFacts.evidence_layout_head ot
              (spec_all_lines (objective_evidence p)) ht he mt me et
              (match dict_get p "unknowns" (JList []) with
               | JList l => l
               | _ => []
               end)) as [rest ->].
  exists ot, rest. split; [exact Eo | reflexivity].
Qed.

(* ===================================================================== *)
(** ** The evidence formatter *)
(* ===================================================================== *)

Module QuoteFacts.
Import PyStrFacts.

Lemma rstrip_empty_iff (t : string) :
  rstrip t = EmptyString <-> all_chars is_space t = true.
Proof.
  split; [| apply rstrip_spaces].
  induction t as [|c u IH]; [reflexivity|].
  cbn [rstrip all_chars]. destruct (rstrip u) eqn:R; [| discriminate].
  destruct (is_space c); [| discriminate].
  intros _. now rewrite IH.
Qed.

Lemma app_not_empty (a : string) (c : ascii) :
  a ++ String c EmptyString <> EmptyString.
Proof. destruct a; discriminate. Qed.

Lemma split_from_nonempty (t : string) : forall cur,
  cur <> EmptyString -> split_from cur t <> [].
Proof.
  induction t as [|c u IH]; intros cur Hc; cbn [split_from].
  - destruct cur; [congruence | discriminate].
  - destruct (is_space c).
    + destruct cur; [congruence | discriminate].
    + apply IH, app_not_empty.
Qed.

Lemma split_empty_iff (t : string) :
  split_from EmptyString t = [] <-> all_chars is_space t = true.
Proof.
  induction t as [|c u IH]; [now split|].
  cbn [split_from all_chars]. destruct (is_space c) eqn:Hc.
  - exact IH.
  - split; [| discriminate].
    intros H. now apply split_from_nonempty in H.
Qed.

Lemma rstrip_cons (c : ascii) (t : string) :
  rstrip (String c t)
  = if all_chars is_space t
    then (if is_space c then EmptyString else String c EmptyString)
    else String c (rstrip t).
Proof.
  cbn [rstrip]. destruct (all_chars is_space t) eqn:A.
  - apply rstrip_empty_iff in A. now rewrite A.
  - destruct (rstrip t) eqn:R; [| reflexivity].
    apply rstrip_empty_iff in R. congruence.
Qed.

Lemma tail_text_word (b : bool) (c : ascii) (t : string) :
  is_space c = false ->
  tail_text b (String c t) = String c (tail_text false t).
Proof.
  intros Hc. unfold tail_text. rewrite rstrip_cons, Hc.
  destruct (all_chars is_space t) eqn:A.
  - apply rstrip_empty_iff in A. rewrite A. cbn. now rewrite Hc.
  - cbn [collapse_from]. now rewrite Hc.
Qed.

Lemma tail_text_space_true (c : ascii) (t : string) :
  is_space c = true -> tail_text true (String c t) = tail_text true t.
Proof.
  intros Hc. unfold tail_text. rewrite rstrip_cons, Hc.
  destruct (all_chars is_space t) eqn:A.
  - apply rstrip_empty_iff in A. now rewrite A.
  - cbn [collapse_from]. now rewrite Hc.
Qed.

Lemma tail_text_space_false (c : ascii) (t : string) :
  is_space c = true ->
  tail_text false (String c t)
  = if all_chars is_space t then EmptyString
    else String " "%char (tail_text true t).
Proof.
  intros Hc. unfold tail_text. rewrite rstrip_cons, Hc.
  destruct (all_chars is_space t) eqn:A; [reflexivity|].
  cbn [collapse_from]. now rewrite Hc.
Qed.

Lemma join_split_from (t : string) :
  (forall cur, cur <> EmptyString ->
     join " " (split_from cur t) = cur ++ tail_text false t)
  /\ join " " (split_from EmptyString t) = tail_text true t.
Proof.
  induction t as [|c u [IH1 IH2]].
  - split; [| reflexivity].
    intros cur Hc. destruct cur; [congruence|].
    cbn. now rewrite app_empty_r.
  - destruct (is_space c) eqn:Hc.
    + split.
      * intros cur Hcur. cbn [split_from]. rewrite Hc.
        rewrite tail_text_space_false by exact Hc.
        destruct cur as [|x cur']; [congruence|].
        destruct (all_chars is_space u) eqn:A.
        -- apply split_empty_iff in A. rewrite A. cbn.
           now rewrite app_empty_r.
        -- rewrite join_cons.
           ++ now rewrite IH2.
           ++ intros E. apply split_empty_iff in E. congruence.
      * cbn [split_from]. rewrite Hc.
        now rewrite tail_text_space_true.
    + split.
      * intros cur Hcur. cbn [split_from]. rewrite Hc.
        rewrite IH1 by apply app_not_empty.
        rewrite tail_text_word by exact Hc.
        now rewrite app_assoc.
      * cbn [split_from]. rewrite Hc.
        rewrite IH1 by discriminate.
        now rewrite tail_text_word.
Qed.

(** Trimming and collapsing a text gives its words joined by single
    spaces. *)
Lemma collapse_strip_words (s : string) :
  collapse_ws (strip s) = join " " (split_ws s).
Proof.
  unfold collapse_ws, strip, split_ws.
  induction s as [|c t IH]; [reflexivity|].
  cbn [lstrip split_from]. destruct (is_space c) eqn:Hc; [exact IH|].
  destruct (join_split_from t) as [H1 _].
  rewrite H1 by discriminate.
  change (collapse_from false (rstrip (String c t)))
    with (tail_text false (String c t)).
  now rewrite tail_text_word.
Qed.

Lemma split_from_word (w : string) : forall cur t,
  all_chars (fun c => negb (is_space c)) w = true ->
  split_from cur (w ++ t) = split_from (cur ++ w) t.
Proof.
  induction w as [|c u IH]; intros cur t H.
  - now rewrite app_empty_r.
  - cbn [all_chars] in H. apply andb_true_iff in H as [Hc Hu].
    apply negb_true_iff in Hc.
    change (String c u ++ t) with (String c (u ++ t)).
    cbn [split_from]. rewrite Hc, IH by exact Hu.
    now rewrite app_assoc.
Qed.

Lemma split_join_words (ws : list string) :
  forallb is_word ws = true -> split_ws (join " " ws) = ws.
Proof.
  unfold split_ws.
  induction ws as [|w r IH]; intros H; [reflexivity|].
  cbn [forallb] in H. apply andb_true_iff in H as [Hw Hr].
  unfold is_word in Hw. apply andb_true_iff in Hw as [Hne Hall].
  apply negb_true_iff, String.eqb_neq in Hne.
  destruct r as [|w' r'].
  - cbn [join]. rewrite <- (app_empty_r w) at 1.
    rewrite split_from_word by exact Hall.
    cbn. destruct w; [congruence | reflexivity].
  - rewrite join_cons by discriminate.
    rewrite split_from_word by exact Hall.
    change (EmptyString ++ w) with w.
    change (" " ++ join " " (w' :: r'))
      with (String " "%char (join " " (w' :: r'))).
    cbn [split_from]. change (is_space " ") with true. cbn iota.
    rewrite (IH Hr). destruct w; [congruence | reflexivity].
Qed.

Lemma all_chars_snoc (p : ascii -> bool) (a : string) (c : ascii) :
  all_chars p (a ++ String c EmptyString) = all_chars p a && p c.
Proof. rewrite all_chars_app. cbn. now rewrite andb_true_r. Qed.

Lemma split_from_words (t : string) : forall cur,
  all_chars (fun c => negb (is_space c)) cur = true ->
  forallb is_word (split_from cur t) = true.
Proof.
  induction t as [|c u IH]; intros cur Hcur; cbn [split_from].
  - destruct cur; [reflexivity|].
    cbn [forallb]. unfold is_word. rewrite Hcur. reflexivity.
  - destruct (is_space c) eqn:Hc.
    + destruct cur as [|x cur'].
      * now apply IH.
      * cbn [forallb]. unfold is_word at 1. rewrite Hcur.
        cbn [String.eqb negb andb]. now apply IH.
    + apply IH. rewrite all_chars_snoc, Hcur, Hc. reflexivity.
Qed.

Lemma split_collapse_strip (s : string) :
  split_ws (collapse_ws (strip s)) = split_ws s.
Proof.
  rewrite collapse_strip_words. apply split_join_words.
  now apply split_from_words.
Qed.

Lemma normalize_quote_words (s : string) :
  normalize_quote (JString s) = Ok (spec_quote s).
Proof.
  assert (E : (if truthy (JString s) then JString s else JString EmptyString)
              = JString s).
  { cbn [truthy]. destruct s; reflexivity. }
  unfold normalize_quote, spec_quote. rewrite E.
  rewrite split_collapse_strip, collapse_strip_words. reflexivity.
Qed.

Lemma format_evidence_list_eq (ev : json) :
  evidence_ok ev = true -> format_evidence_list ev = Ok (spec_all_lines ev).
Proof.
  intros H. destruct (TotalityFacts.format_evidence_list_ok ev H) as [lines E].
  rewrite E. f_equal. now apply EvidenceDocFacts.format_evidence_list_all.
Qed.

End QuoteFacts.

(** C3.  The formatter raises on an entry whose quote is a true value that
    is not a string (here the number 5), where the claim has it return a
    sequence; and a page that is a JSON boolean is printed as if it were an
    integer, where the claim has [(p.?)].  Apart from these it does as the
    claim says: a value that is not a list gives no lines; with accepted
    quotes the result is, in input order and without merging equal lines,
    one line per entry that is a mapping and whose normalized quote is not
    empty; a string quote normalizes to its words joined by single spaces,
    cut to the first 40 words and "..." when there are more, and any other
    accepted quote to the empty text; the line shows the page number, or
    "?" when the page is not a number. *)
Theorem format_evidence_list_on_other_types :
  format_evidence_list
    (JList [JObject [("page", JInt 1); ("quote", JInt 5)]])
  = Raise AttributeError
  /\ format_evidence_list
       (JList [JObject [("page", JBool true); ("quote", JString "q")]])
     = Ok ["(p.True) " ++ String dquote ("q" ++ String dquote EmptyString)]
  /\ (forall ev, is_list ev = false -> format_evidence_list ev = Ok [])
  /\ (forall ev, evidence_ok ev = true ->
        format_evidence_list ev = Ok (spec_all_lines ev))
  /\ (forall s, normalize_quote (JString s) = Ok (spec_quote s))
  /\ (forall s, forallb is_word (split_ws s) = true)
  /\ (forall q, quote_ok q = true -> is_string q = false ->
        normalize_quote q = Ok EmptyString)
  /\ (forall page quote,
        evidence_line page quote
        = "(p."
          ++ match page with
             | JInt z => str_of_Z z
             | JBool true => "True"
             | JBool false => "False"
             | _ => "?"
             end
          ++ ") " ++ String dquote (quote ++ String dquote EmptyString))
  /\ normalize_quote (JString (join "  " (repeat "word" 50)))
     = Ok (join " " (repeat "word" 40) ++ "...").
Proof.
  split; [reflexivity|]. split; [reflexivity|].
  split.
  { intros ev. destruct ev; cbn [is_list]; intros H; try discriminate;
      reflexivity. }
  split; [exact QuoteFacts.format_evidence_list_eq|].
  split; [exact QuoteFacts.normalize_quote_words|].
  split.
  { intros s. now apply QuoteFacts.split_from_words. }
  split.
  { intros q Hq Hs. unfold normalize_quote.
    destruct q as [|b|z|f|s|l|d]; cbn [is_string] in Hs; try discriminate;
      cbn [quote_ok] in Hq; apply negb_true_iff in Hq; rewrite Hq;
      reflexivity. }
  split.
  { intros page quote. destruct page as [|[]| | | | |]; reflexivity. }
  vm_compute. reflexivity.
Qed.

(* ===================================================================== *)
(** ** Further properties of the normalizers *)
(* ===================================================================== *)

Module StripFacts.
Import PyStrFacts.

Lemma strip_idempotent (s : string) : strip (strip s) = strip s.
Proof.
  destruct (strip_spec s) as (_ & _ & _ & _ & _ & [E | [Hf Hl]]).
  - rewrite E. reflexivity.
  - rewrite <- (app_empty_r (strip s)) at 1.
    now apply strip_tight_app.
Qed.

Lemma lstrip_app_spaces (l x : string) :
  all_chars is_space l = true -> lstrip (l ++ x) = lstrip x.
Proof.
  induction l as [|c t IH]; intros H; [reflexivity|].
  cbn [all_chars] in H. apply andb_true_iff in H as [Hc Ht].
  change (String c t ++ x) with (String c (t ++ x)).
  cbn [lstrip]. rewrite Hc. now apply IH.
Qed.

(** Whitespace around a text that starts and ends with a visible
    character is all that [strip] removes. *)
Lemma strip_surrounded (l x r : string) :
  all_chars is_space l = true -> all_chars is_space r = true ->
  first_nonspace x = true -> last_nonspace x = true ->
  strip (l ++ x ++ r) = x.
Proof.
  intros Hl Hr Hf Hla. unfold strip.
  rewrite lstrip_app_spaces by exact Hl.
  change (rstrip (lstrip (x ++ r))) with (strip (x ++ r)).
  now apply strip_tight_app.
Qed.

Lemma first_nonspace_all (p : ascii -> bool) (s : string) :
  (forall c, p c = true -> is_space c = false) ->
  all_chars p s = true -> s <> EmptyString -> first_nonspace s = true.
Proof.
  intros Hp. destruct s as [|c t]; intros Hall Hne; [congruence|].
  cbn [all_chars] in Hall. apply andb_true_iff in Hall as [Hc _].
  cbn. now rewrite (Hp _ Hc).
Qed.

Lemma first_nonspace_not_empty (s : string) :
  first_nonspace s = true -> s <> EmptyString.
Proof. destruct s; [discriminate | discriminate]. Qed.

Lemma strip_tight (x : string) :
  first_nonspace x = true -> last_nonspace x = true -> strip x = x.
Proof.
  intros Hf Hl. rewrite <- (app_empty_r x) at 1.
  now apply strip_tight_app.
Qed.

End StripFacts.

Module NormalizeFacts.
Import PyStrFacts PrintFacts StripFacts.

Lemma repr_first (x : json) :
  (forall s, x <> JString s) -> first_nonspace (PyRepr.repr x) = true.
Proof.
  destruct x as [|[]|z|f|s|l|d]; intros Hx; try reflexivity.
  - cbn [PyRepr.repr]. destruct (str_of_Z_chars z) as [Hall Hne].
    now apply first_nonspace_all with (p := is_float_char);
      [apply float_char_not_space | |].
  - clear Hx. destruct f as [t wf]. cbn [PyRepr.repr float_text].
    unfold float_text_ok in wf. apply andb_true_iff in wf as [Hne Hall].
    apply first_nonspace_all with (p := is_float_char).
    + apply float_char_not_space.
    + exact Hall.
    + intros ->. discriminate.
  - now elim (Hx s).
Qed.

Lemma normalize_unknown_first (x : json) :
  first_nonspace (normalize_unknown x) = true.
Proof.
  destruct x as [|b|z|f|s|l|d];
    try (apply repr_first; intros s0; discriminate); try reflexivity.
  unfold normalize_unknown.
  destruct (strip s =? EmptyString) eqn:E; [reflexivity|].
  destruct (existsb (String.eqb (lower (strip s))) unknown_synonyms);
    [reflexivity|].
  apply String.eqb_neq in E.
  destruct (strip_spec s) as (_ & _ & _ & _ & _ & [E' | [Hf _]]);
    [contradiction | exact Hf].
Qed.

(** A text that is already the result of normalizing a string is kept. *)
Lemma normalize_unknown_text_fixed (s : string) :
  normalize_unknown (JString (normalize_unknown (JString s)))
  = normalize_unknown (JString s).
Proof.
  unfold normalize_unknown at 2 3.
  destruct (strip s =? EmptyString) eqn:E; [reflexivity|].
  destruct (existsb (String.eqb (lower (strip s))) unknown_synonyms) eqn:S;
    [reflexivity|].
  unfold normalize_unknown. rewrite strip_idempotent, E, S. reflexivity.
Qed.

Lemma not_placeholder (t : string) :
  placeholder_head t = false -> t <> EmptyString ->
  existsb (String.eqb (lower t)) unknown_synonyms = false.
Proof.
  destruct t as [|c u]; intros H Hne; [congruence|].
  cbn [placeholder_head] in H. apply orb_false_iff in H as [Hu Hn].
  cbn [lower existsb unknown_synonyms String.eqb].
  rewrite Hu, Hn. reflexivity.
Qed.

Lemma int_char_head (c : ascii) :
  is_int_char c = true ->
  Ascii.eqb (lower_char c) "u"%char || Ascii.eqb (lower_char c) "n"%char = false.
Proof.
  destruct c as [[] [] [] [] [] [] [] []]; vm_compute; congruence.
Qed.

Lemma str_of_Z_int_chars (z : Z) :
  all_chars is_int_char (str_of_Z z) = true.
Proof.
  assert (Hd : forall d, all_chars is_int_char (NilZero.string_of_uint d) = true).
  { intros d. destruct (str_of_uint_digits d) as [H _]. revert H.
    apply all_chars_weaken. intros c Hc. unfold is_int_char. now rewrite Hc. }
  unfold str_of_Z. destruct (Z.to_int z) as [d|d]; cbn [NilZero.string_of_int].
  - apply Hd.
  - cbn [all_chars]. rewrite Hd. reflexivity.
Qed.

Lemma repr_not_placeholder (x : json) :
  match x with JNull | JFloat _ | JString _ => False | _ => True end ->
  placeholder_head (PyRepr.repr x) = false.
Proof.
  destruct x as [|[]|z|f|s|l|d]; intros Hx; try reflexivity; try contradiction.
  cbn [PyRepr.repr]. pose proof (str_of_Z_int_chars z) as H.
  destruct (str_of_Z z) as [|c t]; [reflexivity|].
  cbn [all_chars] in H. apply andb_true_iff in H as [Hc _].
  cbn [placeholder_head]. now apply int_char_head.
Qed.

End NormalizeFacts.

(** X1.  The normalizer never gives an empty text, nor one with whitespace at
    either end, whatever the value. *)
Theorem normalize_unknown_never_blank (x : json) :
  normalize_unknown x <> EmptyString
  /\ first_nonspace (normalize_unknown x) = true
  /\ last_nonspace (normalize_unknown x) = true
  /\ strip (normalize_unknown x) = normalize_unknown x.
Proof.
  pose proof (NormalizeFacts.normalize_unknown_first x) as Hf.
  pose proof (PrintFacts.normalize_unknown_last x) as Hl.
  repeat split; try assumption.
  - now apply StripFacts.first_nonspace_not_empty.
  - now apply StripFacts.strip_tight.
Qed.

(** X2.  Normalizing is idempotent: the text that the normalizer gives for
    None, a string, a boolean, an integer, a list or a mapping is left as
    it is when it is normalized again as a string.  (Floats are not
    covered.) *)
Theorem normalize_unknown_idempotent (x : json) :
  match x with
  | JFloat _ => True
  | _ => normalize_unknown (JString (normalize_unknown x)) = normalize_unknown x
  end.
Proof.
  destruct x as [|b|z|f|s|l|d]; try exact I; try reflexivity.
  1,2,4,5:
    match goal with
    | |- normalize_unknown (JString (normalize_unknown ?v)) = _ =>
        change (normalize_unknown v) with (PyRepr.repr v);
        assert (Hx : forall s0, v <> JString s0) by (intros s0; discriminate);
        pose proof (NormalizeFacts.repr_first v Hx) as Hf;
        pose proof (PrintFacts.repr_last v Hx) as Hl;
        pose proof (NormalizeFacts.repr_not_placeholder v I) as Hp;
        unfold normalize_unknown;
        rewrite (StripFacts.strip_tight _ Hf Hl);
        pose proof (StripFacts.first_nonspace_not_empty _ Hf) as Hne;
        rewrite (proj2 (String.eqb_neq _ _) Hne);
        rewrite (NormalizeFacts.not_placeholder _ Hp Hne); reflexivity
    end.
  apply NormalizeFacts.normalize_unknown_text_fixed.
Qed.

(* ===================================================================== *)
(** ** Further properties of the evidence formatter *)
(* ===================================================================== *)

Module FormatterFacts.
Import PyStrFacts QuoteFacts.

Lemma join_mark_last (ws : list string) :
  ws <> [] -> join " " ws ++ "..." = join " " (mark_last ws).
Proof.
  induction ws as [|w r IH]; intros H; [congruence|].
  destruct r as [|w' r']; [reflexivity|].
  change (mark_last (w :: w' :: r')) with (w :: mark_last (w' :: r')).
  rewrite (join_cons " " w (w' :: r')) by discriminate.
  rewrite (join_cons " " w (mark_last (w' :: r')))
    by (destruct r'; discriminate).
  rewrite <- IH by discriminate. str_norm. reflexivity.
Qed.

Lemma is_word_marked (w : string) : is_word w = true -> is_word (w ++ "...") = true.
Proof.
  unfold is_word. intros H. apply andb_true_iff in H as [Hne Hall].
  rewrite all_chars_app, Hall. destruct w; [discriminate | reflexivity].
Qed.

Lemma mark_last_words (ws : list string) :
  forallb is_word ws = true -> forallb is_word (mark_last ws) = true.
Proof.
  induction ws as [|w r IH]; intros H; [reflexivity|].
  cbn [forallb] in H. apply andb_true_iff in H as [Hw Hr].
  destruct r as [|w' r'].
  - cbn. now rewrite is_word_marked.
  - change (mark_last (w :: w' :: r')) with (w :: mark_last (w' :: r')).
    cbn [forallb]. rewrite Hw. now apply IH.
Qed.

Lemma mark_last_length (ws : list string) :
  List.length (mark_last ws) = List.length ws.
Proof.
  induction ws as [|w r IH]; [reflexivity|].
  destruct r as [|w' r']; [reflexivity|].
  change (mark_last (w :: w' :: r')) with (w :: mark_last (w' :: r')).
  cbn [List.length]. now rewrite IH.
Qed.

Lemma forallb_firstn {A : Type} (p : A -> bool) (n : nat) (l : list A) :
  forallb p l = true -> forallb p (firstn n l) = true.
Proof.
  revert n. induction l as [|x r IH]; intros [|n] H; try reflexivity.
  cbn [forallb] in H. apply andb_true_iff in H as [Hx Hr].
  cbn [firstn forallb]. rewrite Hx. now apply IH.
Qed.

Lemma spec_quote_words (s : string) :
  spec_quote s = join " " (quote_words s)
  /\ forallb is_word (quote_words s) = true
  /\ List.length (quote_words s) <= 40.
Proof.
  unfold spec_quote, quote_words. cbv zeta.
  pose proof (split_from_words s EmptyString eq_refl) as Hw.
  fold (split_ws s) in Hw.
  destruct (40 <? List.length (split_ws s))%nat eqn:E.
  - apply Nat.ltb_lt in E. split; [| split].
    + apply join_mark_last. destruct (split_ws s); [cbn in E; lia | discriminate].
    + apply mark_last_words. now apply forallb_firstn.
    + rewrite mark_last_length. apply firstn_le_length.
  - apply Nat.ltb_ge in E. auto.
Qed.

Lemma spec_quote_fixed (s : string) : spec_quote (spec_quote s) = spec_quote s.
Proof.
  destruct (spec_quote_words s) as (E & Hw & Hl).
  rewrite E. unfold spec_quote.
  rewrite (split_join_words _ Hw).
  apply Nat.ltb_ge in Hl. now rewrite Hl.
Qed.

Lemma plain_word (w : string) :
  is_word w = true -> all_chars plain_char w = true.
Proof.
  unfold is_word. intros H. apply andb_true_iff in H as [_ H]. revert H.
  apply all_chars_weaken. intros c Hc. unfold plain_char. now rewrite Hc.
Qed.

Lemma plain_join (ws : list string) :
  forallb is_word ws = true -> all_chars plain_char (join " " ws) = true.
Proof.
  induction ws as [|w r IH]; intros H; [reflexivity|].
  cbn [forallb] in H. apply andb_true_iff in H as [Hw Hr].
  destruct r as [|w' r']; [now apply plain_word|].
  rewrite join_cons by discriminate.
  rewrite !all_chars_app, (plain_word _ Hw), (IH Hr). reflexivity.
Qed.

Lemma normalize_quote_plain (q : json) (t : string) :
  normalize_quote q = Ok t -> all_chars plain_char t = true.
Proof.
  assert (Hs : forall s, normalize_quote (JString s) = Ok t ->
                         all_chars plain_char t = true).
  { intros s. rewrite normalize_quote_words. intros [= <-].
    destruct (spec_quote_words s) as (-> & Hw & _). now apply plain_join. }
  destruct q as [|b|z|f|s|l|d]; try apply Hs.
  all: unfold normalize_quote;
    match goal with |- context [truthy ?v] => destruct (truthy v) end;
    try discriminate; now intros [= <-].
Qed.

Lemma plain_float_char (c : ascii) : is_float_char c = true -> plain_char c = true.
Proof.
  intros H. unfold plain_char. now rewrite (PrintFacts.float_char_not_space _ H).
Qed.

Lemma evidence_line_plain (page : json) (quote : string) :
  all_chars plain_char quote = true ->
  all_chars plain_char (evidence_line page quote) = true.
Proof.
  intros Hq.
  assert (Hz : forall z, all_chars plain_char (str_of_Z z) = true).
  { intros z. destruct (PrintFacts.str_of_Z_chars z) as [H _]. revert H.
    apply all_chars_weaken, plain_float_char. }
  destruct page as [|[]|z| | | |]; unfold evidence_line;
    cbn [PyRepr.str PyRepr.repr];
    repeat (rewrite all_chars_app || cbn [all_chars append]);
    rewrite ?Hz, ?Hq; reflexivity.
Qed.

Lemma format_evidence_items_plain (l : list json) :
  forall lines, format_evidence_items l = Ok lines ->
                forallb (all_chars plain_char) lines = true.
Proof.
  induction l as [|item r IH]; intros lines; cbn [format_evidence_items].
  - now intros [= <-].
  - destruct item; try apply IH.
    destruct (normalize_quote _) as [q|e] eqn:Q; cbn [bind]; [| discriminate].
    destruct (q =? EmptyString); [apply IH|].
    destruct (format_evidence_items r) as [rest|e]; cbn [bind]; [| discriminate].
    intros [= <-]. cbn [forallb]. rewrite (IH rest eq_refl).
    rewrite evidence_line_plain; [reflexivity|].
    now apply normalize_quote_plain in Q.
Qed.

Lemma normalize_quote_raises (q : json) :
  quote_ok q = false -> normalize_quote q = Raise AttributeError.
Proof.
  unfold normalize_quote.
  destruct q as [|b|z|f|s|l|d]; cbn [quote_ok]; intros H;
    try discriminate; apply negb_false_iff in H; rewrite H; reflexivity.
Qed.

Lemma format_evidence_items_raises (l : list json) :
  forallb entry_ok l = false -> format_evidence_items l = Raise AttributeError.
Proof.
  induction l as [|item r IH]; intros H; [discriminate|].
  cbn [forallb] in H.
  destruct item; cbn [entry_ok andb] in H; cbn [format_evidence_items];
    try (now apply IH).
  destruct (quote_ok (dict_get d "quote" (JString EmptyString))) eqn:Q.
  - destruct (TotalityFacts.normalize_quote_ok _ Q) as [q ->]. cbn [bind].
    cbn [andb] in H. rewrite (IH H).
    destruct (q =? EmptyString); reflexivity.
  - now rewrite (normalize_quote_raises _ Q).
Qed.

Lemma format_evidence_items_app (a b : list json) :
  format_evidence_items (a ++ b)
  = (la <- format_evidence_items a ;;
     lb <- format_evidence_items b ;;
     Ok (la ++ lb)%list).
Proof.
  induction a as [|item r IH].
  - cbn. destruct (format_evidence_items b); reflexivity.
  - change ((item :: r) ++ b)%list with (item :: (r ++ b)%list).
    destruct item; cbn [format_evidence_items]; try exact IH.
    destruct (normalize_quote _) as [q|e]; cbn [bind]; [| reflexivity].
    destruct (q =? EmptyString); [exact IH|].
    rewrite IH.
    destruct (format_evidence_items r) as [la|e]; cbn [bind]; [| reflexivity].
    destruct (format_evidence_items b) as [lb|e]; reflexivity.
Qed.

Lemma format_evidence_list_exn (ev : json) (e : exn) :
  format_evidence_list ev = Raise e -> e = AttributeError.
Proof.
  destruct ev; cbn [format_evidence_list]; try discriminate.
  destruct (forallb entry_ok l) eqn:E.
  - destruct (TotalityFacts.format_evidence_items_ok l E) as [x ->].
    discriminate.
  - rewrite (format_evidence_items_raises l E). now intros [= <-].
Qed.

End FormatterFacts.

(** X3.  Normalizing a quote is idempotent, and a normalized quote is its own
    words joined by single spaces, at most 40 of them. *)
Theorem normalize_quote_idempotent (s : string) :
  exists q,
    normalize_quote (JString s) = Ok q
    /\ normalize_quote (JString q) = Ok q
    /\ q = join " " (split_ws q)
    /\ List.length (split_ws q) <= 40.
Proof.
  exists (spec_quote s).
  destruct (FormatterFacts.spec_quote_words s) as (E & Hw & Hl).
  rewrite !QuoteFacts.normalize_quote_words, FormatterFacts.spec_quote_fixed.
  repeat split.
  - rewrite E at 2. now rewrite (QuoteFacts.split_join_words _ Hw).
  - rewrite E. now rewrite (QuoteFacts.split_join_words _ Hw).
Qed.

(** X4.  No line that the formatter returns holds a line feed, a tab or any
    other whitespace than the plain space, whatever the quotes and pages
    held. *)
Theorem evidence_lines_are_single_lines (ev : json) :
  match format_evidence_list ev with
  | Ok lines => forallb (all_chars plain_char) lines = true
  | Raise _ => True
  end.
Proof.
  destruct (format_evidence_list ev) as [lines|e] eqn:E; [| exact I].
  destruct ev; cbn [format_evidence_list] in E;
    try (injection E as <-; reflexivity).
  now apply FormatterFacts.format_evidence_items_plain in E.
Qed.

(** X5.  The formatter raises exactly on a list that holds a mapping whose
    quote is a true value other than a string, and then with
    AttributeError; on every other value it returns. *)
Theorem format_evidence_list_raises_iff (ev : json) :
  (format_evidence_list ev = Raise AttributeError
   <-> exists l, ev = JList l
                 /\ existsb (fun item =>
                      match item with
                      | JObject d =>
                          let q := dict_get d "quote" (JString EmptyString) in
                          truthy q && negb (is_string q)
                      | _ => false
                      end) l = true)
  /\ (returns (format_evidence_list ev) = false ->
      format_evidence_list ev = Raise AttributeError).
Proof.
  assert (Hq : forall q, quote_ok q = negb (truthy q && negb (is_string q))).
  { intros q. destruct q; cbn [quote_ok is_string]; try reflexivity;
      try (now rewrite andb_true_r).
    now rewrite andb_false_r. }
  assert (Hl : forall l,
    forallb entry_ok l
    = negb (existsb (fun item =>
                       match item with
                       | JObject d =>
                           let q := dict_get d "quote" (JString EmptyString) in
                           truthy q && negb (is_string q)
                       | _ => false
                       end) l)).
  { induction l as [|item r IH]; [reflexivity|].
    cbn [forallb existsb]. rewrite IH, negb_orb. f_equal.
    destruct item; cbn [entry_ok]; try reflexivity. apply Hq. }
  assert (Hr : returns (format_evidence_list ev) = false ->
               format_evidence_list ev = Raise AttributeError).
  { destruct ev; cbn [format_evidence_list returns];
      try (intros H; discriminate H).
    destruct (forallb entry_ok l) eqn:E.
    - destruct (TotalityFacts.format_evidence_items_ok l E) as [x ->].
      intros H; discriminate H.
    - intros _. now apply FormatterFacts.format_evidence_items_raises. }
  split; [| exact Hr].
  split.
  - intros H. destruct ev; cbn [format_evidence_list] in H; try discriminate.
    exists l. split; [reflexivity|].
    destruct (forallb entry_ok l) eqn:E.
    + destruct (TotalityFacts.format_evidence_items_ok l E) as [x Hx].
      congruence.
    + rewrite Hl in E. now apply negb_false_iff in E.
  - intros (l & -> & H). cbn [format_evidence_list].
    apply FormatterFacts.format_evidence_items_raises.
    rewrite Hl, H. reflexivity.
Qed.

(** X6.  Formatting a list of entries is formatting its parts one after the
    other: the lines of [a ++ b] are the lines of [a] followed by those of
    [b], and it raises when either part does. *)
Theorem format_evidence_list_app (a b : list json) :
  format_evidence_list (JList (a ++ b))
  = (la <- format_evidence_list (JList a) ;;
     lb <- format_evidence_list (JList b) ;;
     Ok (la ++ lb)%list).
Proof. apply FormatterFacts.format_evidence_items_app. Qed.

(* ===================================================================== *)
(** ** The page of an evidence line *)
(* ===================================================================== *)

Module PageFacts.
Import PyStrFacts.

Lemma page_here_nonempty (s ds : string) :
  page_here s = Some ds -> ds <> EmptyString.
Proof.
  unfold page_here. destruct (starts_with "(p." s); [| discriminate].
  destruct (take_digits (drop 3 s)) as [d rest].
  destruct (d =? EmptyString) eqn:E; cbn [negb andb]; [discriminate|].
  destruct (starts_with ")" rest); [| discriminate].
  intros [= <-]. now apply String.eqb_neq.
Qed.

Lemma search_page_nonempty (s ds : string) :
  search_page s = Some ds -> ds <> EmptyString.
Proof.
  induction s as [|c t IH]; cbn [search_page].
  - destruct (page_here EmptyString) eqn:E; [| discriminate].
    intros [= <-]. now apply page_here_nonempty in E.
  - destruct (page_here (String c t)) eqn:E.
    + intros [= <-]. now apply page_here_nonempty in E.
    + exact IH.
Qed.

Lemma search_page_none (s : string) :
  contains "(p." s = false -> search_page s = None.
Proof.
  induction s as [|c t IH]; intros H.
  - reflexivity.
  - cbn [contains] in H. apply orb_false_iff in H as [H1 H2].
    cbn [search_page]. unfold page_here. rewrite H1. now apply IH.
Qed.

Lemma take_digits_app (ds rest : string) :
  all_chars is_digit ds = true -> starts_with ")" rest = true ->
  take_digits (ds ++ rest) = (ds, rest).
Proof.
  intros Hd Hr. induction ds as [|c t IH].
  - destruct rest as [|x r]; [discriminate|].
    cbn [starts_with] in Hr. apply andb_true_iff in Hr as [Hx _].
    apply Ascii.eqb_eq in Hx. subst x. reflexivity.
  - cbn [all_chars] in Hd. apply andb_true_iff in Hd as [Hc Ht].
    change (String c t ++ rest) with (String c (t ++ rest)).
    cbn [take_digits]. rewrite Hc, (IH Ht). reflexivity.
Qed.

Lemma str_of_Z_nonneg_digits (z : Z) :
  (0 <= z)%Z ->
  all_chars is_digit (str_of_Z z) = true /\ str_of_Z z <> EmptyString.
Proof.
  intros Hz. unfold str_of_Z. destruct z as [|p|p]; try lia.
  - split; [reflexivity | discriminate].
  - apply PrintFacts.str_of_uint_digits.
Qed.

End PageFacts.

(** X7.  [extract_page] gives "?" or a non-empty run of decimal digits, and "?"
    for every line without the marker ["(p."]. *)
Theorem extract_page_range (line : string) :
  (extract_page line = "?"
   \/ (extract_page line <> EmptyString
       /\ all_chars is_digit (extract_page line) = true))
  /\ (contains "(p." line = false -> extract_page line = "?").
Proof.
  split.
  - unfold extract_page. destruct (search_page line) as [ds|] eqn:E; [| now left].
    right. split.
    + now apply PageFacts.search_page_nonempty in E.
    + now apply EvidenceFacts.search_page_digits in E.
  - intros H. unfold extract_page.
    now rewrite (PageFacts.search_page_none _ H).
Qed.

(** X8.  [extract_page] reads back the page that the formatter wrote: for a page
    that is a non-negative integer, the page of the formatted line is that
    integer, whatever the quote holds. *)
Theorem extract_page_of_evidence_line (z : Z) (quote : string)
    (Hz : (0 <= z)%Z) :
  extract_page (evidence_line (JInt z) quote) = str_of_Z z.
Proof.
  destruct (PageFacts.str_of_Z_nonneg_digits z Hz) as [Hd Hne].
  unfold extract_page, evidence_line.
  set (rest := ") " ++ String dquote (quote ++ String dquote EmptyString)).
  assert (Hp : page_here ("(p." ++ str_of_Z z ++ rest) = Some (str_of_Z z)).
  { unfold page_here.
    change (starts_with "(p." ("(p." ++ str_of_Z z ++ rest)) with true.
    change (drop 3 ("(p." ++ str_of_Z z ++ rest)) with (str_of_Z z ++ rest).
    rewrite (PageFacts.take_digits_app _ rest Hd eq_refl).
    apply String.eqb_neq in Hne. rewrite Hne. reflexivity. }
  change ("(p." ++ str_of_Z z ++ rest)
    with (String "("%char (String "p"%char (String "."%char (str_of_Z z ++ rest))))
    in Hp |- *.
  cbn [search_page]. rewrite Hp. reflexivity.
Qed.

Lemma extract_page_of_evidence_line_witness :
  (0 <= 12)%Z
  /\ extract_page (evidence_line (JInt 12) "see (p.3) above") = "12".
Proof.
  split; [lia|].
  apply (extract_page_of_evidence_line 12 "see (p.3) above"). lia.
Defined.

(* ===================================================================== *)
(** ** Code fences around the generator's answer *)
(* ===================================================================== *)

Module FenceFacts.
Import PyStrFacts StripFacts.

Lemma length_app (a b : string) :
  String.length (a ++ b) = String.length a + String.length b.
Proof. induction a as [|c t IH]; cbn; [reflexivity | now rewrite IH]. Qed.

Lemma skip_letters_tag (lang rest : string) :
  all_chars is_ascii_letter lang = true ->
  skip_letters (lang ++ nl ++ rest) = nl ++ rest.
Proof.
  induction lang as [|c t IH]; intros H; [reflexivity|].
  cbn [all_chars] in H. apply andb_true_iff in H as [Hc Ht].
  change (String c t ++ nl ++ rest) with (String c (t ++ nl ++ rest)).
  cbn [skip_letters]. rewrite Hc. now apply IH.
Qed.

Lemma strip_close_fence_end (body : string) :
  strip_close_fence (body ++ nl ++ fence) = body.
Proof.
  induction body as [|c t IH]; [reflexivity|].
  change (String c t ++ nl ++ fence) with (String c (t ++ nl ++ fence)).
  cbn [strip_close_fence].
  assert (E1 : (String c (t ++ nl ++ fence) =? nl ++ fence) = false).
  { apply String.eqb_neq. intros E.
    apply (f_equal String.length) in E. cbn in E.
    rewrite length_app in E. cbn in E. lia. }
  assert (E2 : (String c (t ++ nl ++ fence) =? nl ++ fence ++ nl) = false).
  { apply String.eqb_neq. intros E.
    pose proof (f_equal String.length E) as L. cbn in L.
    rewrite length_app in L. cbn in L.
    destruct t as [|x u]; [| cbn in L; lia].
    cbn in E. discriminate E. }
  rewrite E1, E2, IH. reflexivity.
Qed.

End FenceFacts.

(** X9.  A fenced answer is unwrapped before it is parsed: with whitespace
    around it, an opening fence with a tag of ASCII letters (possibly
    none), a line feed, a body, a line feed and a closing fence, what
    [json.loads] receives is the trimmed body. *)
Theorem parse_json_strict_unwraps_fence
    (json_loads : string -> option json) (l r lang body : string)
    (Hl : all_chars is_space l = true) (Hr : all_chars is_space r = true)
    (Hlang : all_chars is_ascii_letter lang = true) :
  parse_json_strict json_loads
    (l ++ (fence ++ lang ++ nl ++ body ++ nl ++ fence) ++ r)
  = match json_loads (strip body) with
    | Some plan => Ok plan
    | None => Raise JSONDecodeError
    end.
Proof.
  unfold parse_json_strict. cbv zeta.
  set (x := fence ++ lang ++ nl ++ body ++ nl ++ fence).
  assert (Hf : first_nonspace x = true) by reflexivity.
  assert (Hla : last_nonspace x = true).
  { subst x. rewrite <- !PyStrFacts.app_assoc.
    now apply PyStrFacts.last_nonspace_app. }
  rewrite (StripFacts.strip_surrounded l x r Hl Hr Hf Hla).
  assert (Hs : starts_with fence x = true) by reflexivity.
  rewrite Hs.
  assert (Ho : strip_open_fence x = body ++ nl ++ fence).
  { unfold strip_open_fence. rewrite Hs.
    change (drop 3 x) with (lang ++ nl ++ body ++ nl ++ fence).
    rewrite (FenceFacts.skip_letters_tag _ _ Hlang). reflexivity. }
  rewrite Ho, FenceFacts.strip_close_fence_end. reflexivity.
Qed.

Lemma parse_json_strict_unwraps_fence_witness :
  all_chars is_space " " = true
  /\ all_chars is_space nl = true
  /\ all_chars is_ascii_letter "json" = true
  /\ parse_json_strict (fun _ => Some (JObject []))
       (" " ++ (fence ++ "json" ++ nl ++ "{}" ++ nl ++ fence) ++ nl)
     = Ok (JObject []).
Proof.
  split; [reflexivity|]. split; [reflexivity|]. split; [reflexivity|].
  apply (parse_json_strict_unwraps_fence (fun _ => Some (JObject []))
           " " nl "json" "{}"); reflexivity.
Defined.

Module WhitespaceFacts.
Import PyStrFacts StripFacts.

Lemma lstrip_spaces (r : string) :
  all_chars is_space r = true -> lstrip r = EmptyString.
Proof.
  induction r as [|c t IH]; [reflexivity|].
  cbn [all_chars lstrip]. intros H. apply andb_true_iff in H as [Hc Ht].
  rewrite Hc. now apply IH.
Qed.

Lemma strip_app_spaces (t r : string) :
  all_chars is_space r = true -> strip (t ++ r) = strip t.
Proof.
  intros Hr. unfold strip. induction t as [|c u IH].
  - cbn [append lstrip]. now rewrite (lstrip_spaces r Hr).
  - change (String c u ++ r) with (String c (u ++ r)).
    cbn [lstrip]. destruct (is_space c); [exact IH|].
    change (String c (u ++ r)) with (String c u ++ r).
    now apply rstrip_app_spaces.
Qed.

Lemma strip_around (l t r : string) :
  all_chars is_space l = true -> all_chars is_space r = true ->
  strip (l ++ t ++ r) = strip t.
Proof.
  intros Hl Hr. unfold strip. rewrite lstrip_app_spaces by exact Hl.
  now apply strip_app_spaces.
Qed.

End WhitespaceFacts.

(** X10.  Whitespace before and after the generator's answer makes no
    difference to how it is parsed. *)
Theorem parse_json_strict_ignores_whitespace
    (json_loads : string -> option json) (l text r : string)
    (Hl : all_chars is_space l = true) (Hr : all_chars is_space r = true) :
  parse_json_strict json_loads (l ++ text ++ r)
  = parse_json_strict json_loads text.
Proof.
  unfold parse_json_strict.
  now rewrite (WhitespaceFacts.strip_around l text r Hl Hr).
Qed.

Lemma parse_json_strict_ignores_whitespace_witness :
  all_chars is_space (nl ++ " ") = true
  /\ all_chars is_space nl = true
  /\ parse_json_strict (fun t => if t =? "[]" then Some (JList []) else None)
       ((nl ++ " ") ++ "[]" ++ nl)
     = parse_json_strict (fun t => if t =? "[]" then Some (JList []) else None)
         "[]".
Proof.
  split; [reflexivity|]. split; [reflexivity|].
  apply (parse_json_strict_ignores_whitespace
           (fun t => if t =? "[]" then Some (JList []) else None)
           (nl ++ " ") "[]" nl); reflexivity.
Defined.

(* ===================================================================== *)
(** ** When a section reads "Unknown" *)
(* ===================================================================== *)

Module SentinelFacts.
Import PyStrFacts StripFacts.

Lemma rstrip_app_keep (a b : string) :
  first_nonspace b = true -> rstrip (a ++ b) = a ++ rstrip b.
Proof.
  intros Hb. pose proof (rstrip_first b Hb) as Hf.
  induction a as [|c t IH]; [reflexivity|].
  change (String c t ++ b) with (String c (t ++ b)).
  cbn [rstrip]. rewrite IH.
  change (String c t ++ rstrip b) with (String c (t ++ rstrip b)).
  destruct (t ++ rstrip b) eqn:E; [| reflexivity].
  destruct t; [| discriminate]. cbn in E. rewrite E in Hf. discriminate.
Qed.

(** Stripping keeps a heading at the start of a text when a visible
    character follows the heading. *)
Lemma strip_keeps_head (head rest : string) :
  first_nonspace head = true -> first_nonspace rest = true ->
  starts_with head (strip (head ++ rest)) = true.
Proof.
  intros Hh Hr. unfold strip.
  rewrite lstrip_first by (destruct head; [discriminate | exact Hh]).
  rewrite rstrip_app_keep by exact Hr.
  clear. induction head as [|c t IH]; [reflexivity|].
  cbn. now rewrite Ascii.eqb_refl.
Qed.

Lemma first_nonspace_app (a b : string) :
  first_nonspace a = true -> first_nonspace (a ++ b) = true.
Proof. destruct a; [discriminate | trivial]. Qed.

Lemma experiment_blocks_none (inc : bool) (raw_items : list json) :
  existsb has_name raw_items = false ->
  experiment_blocks inc raw_items = Ok [].
Proof.
  induction raw_items as [|it r IH]; intros H; [reflexivity|].
  cbn [existsb] in H. apply orb_false_iff in H as [Hi Hr].
  destruct it; cbn [experiment_blocks]; try (now apply IH).
  cbn [has_name] in Hi. apply negb_false_iff in Hi. rewrite Hi. now apply IH.
Qed.

(** What the loop returns when some item has a name: a first block that
    starts with the heading and the name. *)
Lemma experiment_blocks_some (inc : bool) (raw_items : list json) :
  forall exps,
    existsb has_name raw_items = true ->
    experiment_blocks inc raw_items = Ok exps ->
    exists rest more,
      exps = ("### " ++ rest) :: more /\ first_nonspace rest = true.
Proof.
  induction raw_items as [|it r IH]; intros exps H; [discriminate|].
  cbn [existsb] in H.
  destruct it; cbn [has_name orb] in H; cbn [experiment_blocks];
    try (now apply IH).
  destruct (normalize_unknown (dict_get d "name" JNull) =? "Unknown") eqn:N;
    cbn [negb orb] in H; [now apply IH|].
  destruct (format_evidence_list _) as [ev|e]; cbn [bind]; [| discriminate].
  destruct (experiment_blocks inc r) as [more|e]; cbn [bind]; [| discriminate].
  intros [= <-]. rewrite EvidenceFacts.experiment_block_spec.
  unfold spec_experiment_block.
  eexists _, more. split; [reflexivity|].
  apply first_nonspace_app, NormalizeFacts.normalize_unknown_first.
Qed.

Lemma experiment_blocks_raise (inc : bool) (raw_items : list json) (e : exn) :
  experiment_blocks inc raw_items = Raise e ->
  e = AttributeError /\ existsb has_name raw_items = true.
Proof.
  induction raw_items as [|it r IH]; [discriminate|].
  destruct it; cbn [experiment_blocks existsb has_name orb]; try exact IH.
  destruct (normalize_unknown (dict_get d "name" JNull) =? "Unknown");
    cbn [negb orb]; [exact IH|].
  destruct (format_evidence_list _) as [ev|e'] eqn:F; cbn [bind].
  - destruct (experiment_blocks inc r) as [more|e'']; cbn [bind];
      [discriminate|].
    intros [= <-]. split; [| reflexivity]. now destruct (IH eq_refl).
  - intros [= <-]. split; [| reflexivity].
    now apply FormatterFacts.format_evidence_list_exn in F.
Qed.

Lemma join_head (b : string) (more : list string) :
  exists tail, join nl (b :: more) = b ++ tail.
Proof.
  destruct more as [|m r].
  - exists EmptyString. cbn. now rewrite app_empty_r.
  - exists (nl ++ join nl (m :: r)). reflexivity.
Qed.

Lemma existsb_has_text (raw_items : list json) :
  spec_surviving raw_items = [] <-> existsb has_text raw_items = false.
Proof.
  induction raw_items as [|it r IH]; [now split|].
  unfold spec_surviving in *. cbn [flat_map existsb].
  destruct it; cbn [spec_item_text has_text orb app]; try exact IH.
  destruct (normalize_unknown (dict_get d "text" JNull) =? "Unknown");
    cbn [negb orb app]; [exact IH|].
  split; discriminate.
Qed.

Lemma experiment_blocks_both (raw_items : list json) :
  forall exps,
    experiment_blocks true raw_items = Ok exps ->
    exists exps', experiment_blocks false raw_items = Ok exps'.
Proof.
  induction raw_items as [|it r IH]; intros exps; [now exists []|].
  destruct it; cbn [experiment_blocks]; try apply IH.
  destruct (normalize_unknown (dict_get d "name" JNull) =? "Unknown");
    [apply IH|].
  destruct (format_evidence_list _) as [ev|e]; cbn [bind]; [| discriminate].
  destruct (experiment_blocks true r) as [more|e]; cbn [bind]; [| discriminate].
  destruct (IH more eq_refl) as [more' ->]. intros _. eexists. reflexivity.
Qed.

Lemma extract_experiments_text_sentinel (p : list (string * json)) (inc : bool) :
  match extract_experiments_text (JObject p) inc with
  | Ok text =>
      if existsb has_name (section_items p "experiments")
      then starts_with "### " text = true
      else text = "Unknown"
  | Raise e =>
      e = AttributeError
      /\ existsb has_name (section_items p "experiments") = true
  end.
Proof.
  unfold extract_experiments_text, section_items, py_get, bind.
  destruct (dict_get p "experiments" (JObject [])) as [| | | | |l|s];
    try reflexivity.
  destruct (dict_get s "items" (JList [])) as [| | | | |raw|];
    try reflexivity.
  destruct raw as [|it r]; [reflexivity|].
  destruct (existsb has_name (it :: r)) eqn:H.
  - destruct (experiment_blocks inc (it :: r)) as [exps|e] eqn:B.
    + destruct (experiment_blocks_some inc _ exps H B) as (rest & more & -> & Hf).
      destruct (join_head ("### " ++ rest) more) as [tail ->].
      rewrite app_assoc.
      apply strip_keeps_head; [reflexivity|].
      now apply first_nonspace_app.
    + destruct (experiment_blocks_raise inc _ e B) as [-> _]. now split.
  - rewrite (experiment_blocks_none inc _ H). reflexivity.
Qed.

Lemma extract_experiments_text_both (p : list (string * json)) (et : string) :
  extract_experiments_text (JObject p) true = Ok et ->
  exists ec,
    extract_experiments_text (JObject p) false = Ok ec
    /\ (ec = "Unknown" <-> et = "Unknown").
Proof.
  intros Ht.
  pose proof (extract_experiments_text_sentinel p true) as St.
  pose proof (extract_experiments_text_sentinel p false) as Sf.
  rewrite Ht in St.
  assert (Hc : exists ec, extract_experiments_text (JObject p) false = Ok ec).
  { revert Ht. unfold extract_experiments_text, py_get, bind.
    destruct (dict_get p "experiments" (JObject [])) as [| | | | |l|s];
      try (intros _; eexists; reflexivity).
    destruct (dict_get s "items" (JList [])) as [| | | | |raw|];
      try (intros _; eexists; reflexivity).
    destruct raw as [|it r]; [intros _; eexists; reflexivity|].
    destruct (experiment_blocks true (it :: r)) as [exps|e] eqn:B;
      [| discriminate].
    destruct (experiment_blocks_both _ exps B) as [exps' ->].
    intros _. destruct exps'; eexists; reflexivity. }
  destruct Hc as [ec Hc]. rewrite Hc in Sf. exists ec. split; [exact Hc|].
  destruct (existsb has_name (section_items p "experiments")).
  - split; intros ->; discriminate.
  - subst. now split.
Qed.

Lemma objective_text_agrees (plan : json) (t : string) (ev : list string) :
  extract_objective_with_evidence plan = Ok (t, ev) ->
  extract_objective_text plan = Ok t.
Proof.
  unfold extract_objective_with_evidence, extract_objective_text, bind.
  destruct (py_get plan "objective" (JObject [])) as [obj|];
    [| discriminate].
  destruct obj; try (now intros [= <- _]).
  destruct (format_evidence_list _); cbn [bind]; [| discriminate].
  now intros [= <- _].
Qed.

End SentinelFacts.

(** X11.  The experiments text is "Unknown" exactly when no item is a mapping
    with a name that does not normalize to "Unknown"; otherwise it starts
    with the heading ["### "] of the first such experiment, or the
    extractor raises AttributeError.  An item without such a name is
    passed over before its evidence is looked at, so it never makes the
    extractor raise. *)
Theorem experiments_unknown_iff_unnamed (p : list (string * json)) (inc : bool) :
  match extract_experiments_text (JObject p) inc with
  | Ok text =>
      if existsb has_name (section_items p "experiments")
      then starts_with "### " text = true
      else text = "Unknown"
  | Raise e =>
      e = AttributeError
      /\ existsb has_name (section_items p "experiments") = true
  end.
Proof. apply SentinelFacts.extract_experiments_text_sentinel. Qed.

(** X12.  The list text of a section is "Unknown" exactly when no item is a
    mapping with a text that does not normalize to "Unknown"; otherwise it
    starts with ["1. "].  The extractor returns for every Plan mapping,
    whatever the evidence of the items holds. *)
Theorem list_text_unknown_iff_no_text (p : list (string * json)) (key : string) :
  exists text,
    extract_list_text (JObject p) key = Ok text
    /\ (if existsb has_text (section_items p key)
        then starts_with "1. " text = true
        else text = "Unknown").
Proof.
  rewrite ListTextFacts.extract_list_text_eq. eexists. split; [reflexivity|].
  pose proof (SentinelFacts.existsb_has_text (section_items p key)) as H.
  destruct (spec_surviving (section_items p key)) as [|t r].
  - rewrite (proj1 H eq_refl). reflexivity.
  - destruct (existsb has_text (section_items p key));
      [| discriminate (proj2 H eq_refl)].
    unfold spec_numbered_list.
    change (map (fun it => str_of_nat (fst it) ++ ". " ++ snd it)
              (combine (seq 1 (List.length (t :: r))) (t :: r)))
      with (("1. " ++ t)
              :: map (fun it => str_of_nat (fst it) ++ ". " ++ snd it)
                   (combine (seq 2 (List.length r)) r)).
    destruct (SentinelFacts.join_head ("1. " ++ t)
                (map (fun it => str_of_nat (fst it) ++ ". " ++ snd it)
                   (combine (seq 2 (List.length r)) r))) as [tail ->].
    reflexivity.
Qed.

(** X13.  Whenever the evidence document can be rendered, so can the concise
    one, and the two agree: they carry the same objective, hypothesis and
    methodology texts, and their experiments texts are "Unknown" together
    or not at all. *)
Theorem two_documents_agree (plan : json) :
  match render_plan_md_with_evidence plan with
  | Ok doc =>
      exists obj hyp meth exps_c obj_ev hyp_ev meth_ev exps_e unknowns,
        render_plan_md_concise plan = Ok (concise_layout obj hyp meth exps_c)
        /\ doc = evidence_layout obj obj_ev hyp hyp_ev meth meth_ev exps_e
                   unknowns
        /\ (exps_c = "Unknown" <-> exps_e = "Unknown")
  | Raise _ => True
  end.
Proof.
  rewrite EvidenceDocFacts.render_plan_md_with_evidence_layout.
  rewrite ConciseFacts.render_plan_md_concise_layout.
  destruct (extract_objective_with_evidence plan) as [[obj oev]|] eqn:Eo;
    [| exact I].
  rewrite (SentinelFacts.objective_text_agrees plan _ _ Eo).
  cbn [bind fst snd].
  destruct (extract_list_text plan "hypothesis") as [hyp|]; [| exact I].
  cbn [bind].
  destruct (extract_list_evidence_lines plan "hypothesis") as [hev|];
    [| exact I].
  cbn [bind].
  destruct (extract_list_text plan "methodology") as [meth|]; [| exact I].
  cbn [bind].
  destruct (extract_list_evidence_lines plan "methodology") as [mev|];
    [| exact I].
  cbn [bind].
  destruct (extract_experiments_text plan true) as [et|] eqn:Et; [| exact I].
  cbn [bind].
  destruct (py_get plan "unknowns" (JList [])) as [u|]; [| exact I].
  cbn [bind].
  destruct plan; try discriminate Eo.
  destruct (SentinelFacts.extract_experiments_text_both d et Et) as (ec & -> & Hu).
  cbn [bind].
  exists obj, hyp, meth, ec, oev, hev, mev, et,
    (match u with JList l => l | _ => [] end).
  repeat split; apply Hu.
Qed.

(* ===================================================================== *)
(** ** The prompt and the order of a run's effects *)
(* ===================================================================== *)

Module PromptFacts.
Import PyStrFacts StripFacts.

Lemma starts_with_app (a b : string) : starts_with a (a ++ b) = true.
Proof.
  induction a as [|c t IH]; [reflexivity|].
  cbn. now rewrite Ascii.eqb_refl.
Qed.

Lemma contains_mid (x a b : string) : contains x (a ++ x ++ b) = true.
Proof.
  induction a as [|c t IH].
  - destruct (x ++ b) eqn:E; cbn [append contains];
      rewrite <- ?E, starts_with_app; reflexivity.
  - change (String c t ++ x ++ b) with (String c (t ++ x ++ b)).
    cbn [contains]. rewrite IH. apply orb_true_r.
Qed.

Lemma app_inv_head (a x y : string) : a ++ x = a ++ y -> x = y.
Proof.
  induction a as [|c t IH]; [trivial|].
  cbn. intros [= H]. now apply IH.
Qed.

Lemma app_inv_tail (b : string) : forall x y, x ++ b = y ++ b -> x = y.
Proof.
  assert (Hlen : forall x y, x ++ b = y ++ b ->
                             String.length x = String.length y).
  { intros x y E. apply (f_equal String.length) in E.
    rewrite !FenceFacts.length_app in E. lia. }
  induction x as [|c t IH]; intros y E.
  - destruct y; [reflexivity|]. apply Hlen in E. discriminate.
  - destruct y as [|d u]; [apply Hlen in E; discriminate|].
    cbn in E. injection E as -> E. f_equal. now apply IH.
Qed.

Lemma prompt_intro_first : first_nonspace prompt_intro = true.
Proof. reflexivity. Qed.

Lemma prompt_end_last : last_nonspace prompt_end = true.
Proof. vm_compute. reflexivity. Qed.

Lemma build_plan_prompt_eq (pdf_path : string) (max_words : Z) :
  build_plan_prompt pdf_path max_words
  = prompt_intro ++ nl ++ pdf_path ++ nl
    ++ prompt_rules ++ str_of_Z max_words ++ prompt_more_rules
    ++ prompt_schema ++ prompt_end.
Proof.
  unfold build_plan_prompt.
  set (x := prompt_intro ++ nl ++ pdf_path ++ nl
            ++ prompt_rules ++ str_of_Z max_words ++ prompt_more_rules
            ++ prompt_schema ++ prompt_end).
  assert (E : nl ++ prompt_intro ++ nl ++ pdf_path ++ nl
              ++ prompt_rules ++ str_of_Z max_words ++ prompt_more_rules
              ++ prompt_schema ++ prompt_end ++ nl
              = nl ++ x ++ nl).
  { subst x. now rewrite !app_assoc. }
  rewrite E. apply strip_surrounded; [reflexivity | reflexivity | |].
  - subst x. apply SentinelFacts.first_nonspace_app, prompt_intro_first.
  - subst x. repeat apply last_nonspace_app. apply prompt_end_last.
Qed.

End PromptFacts.

(** X14.  [strip] takes nothing but the first and the last line feed off the
    prompt, whatever the path and the budget are: the prompt is the fixed
    text with the path on a line of its own, the budget in decimal and the
    schema.  Prompts for different paths differ, and the repair prompt
    starts with the whole prompt. *)
Theorem build_plan_prompt_text (pdf_path : string) (max_words : Z) :
  build_plan_prompt pdf_path max_words
  = prompt_intro ++ nl ++ pdf_path ++ nl
    ++ prompt_rules ++ str_of_Z max_words ++ prompt_more_rules
    ++ prompt_schema ++ prompt_end
  /\ contains (nl ++ pdf_path ++ nl) (build_plan_prompt pdf_path max_words)
     = true
  /\ (forall other,
        build_plan_prompt other max_words = build_plan_prompt pdf_path max_words ->
        other = pdf_path)
  /\ starts_with (build_plan_prompt pdf_path max_words)
       (repair_prompt (build_plan_prompt pdf_path max_words)) = true.
Proof.
  split; [apply PromptFacts.build_plan_prompt_eq|].
  split.
  { rewrite PromptFacts.build_plan_prompt_eq.
    set (rest := prompt_rules ++ str_of_Z max_words ++ prompt_more_rules
                 ++ prompt_schema ++ prompt_end).
    replace (prompt_intro ++ nl ++ pdf_path ++ nl ++ rest)
      with (prompt_intro ++ (nl ++ pdf_path ++ nl) ++ rest)
      by (now rewrite !PyStrFacts.app_assoc).
    apply PromptFacts.contains_mid. }
  split.
  { intros other E. rewrite !PromptFacts.build_plan_prompt_eq in E.
    apply PromptFacts.app_inv_head in E.
    apply PromptFacts.app_inv_head in E.
    apply (PromptFacts.app_inv_tail _ other pdf_path) in E. exact E. }
  apply PromptFacts.starts_with_app.
Qed.

